(** * Exodus II readers: nodal_variables_from_efile.py and total_variables_in_efile.py

    A shallow embedding of [read_exodus_file] and [inspect_exodus_file]
    and of the part of netCDF4 / numpy they call, followed by the
    properties of the two readers.

    Conventions of the embedding.
    - A netCDF file is the pair of its dimension table and its variable
      table.  [nc.Dataset(path, mode='r')] looks the path up in the file
      store of the world and hands out a fresh handle.
    - An array keeps, for every entry, the stored value and its mask flag
      (netCDF4 returns masked arrays).  Arrays of rank 0, 1 and 2 are
      modelled; the fields named by the Exodus convention have rank 1
      (time_whole, coordx, coordy, coordz) or rank 2 (name tables and
      vals_nod_var<k>).
    - A character array has dtype 'S1': each entry is one byte, and
      iterating over it yields [np.bytes_] scalars of that one byte.
      Numeric entries are modelled by integers; [str] of such a scalar is
      its decimal rendering.
    - Python exceptions are values of [exn]; a raising computation stops
      and keeps the world as it was at the raise. *)

From Stdlib Require Import ZArith Ascii String List Lia.
From stdpp Require Import base option list gmap strings pretty.

Local Open Scope string_scope.

(** ** Exceptions and the two monads *)

Inductive exn : Type :=
  | OSError (path : string)            (* the file cannot be opened *)
  | KeyError (key : string)            (* mapping[key] on a missing key *)
  | IndexError (what : string)         (* bad index or missing Dataset item *)
  | ValueError (what : string)         (* netCDF4: slice exceeds the rank *)
  | TypeError (what : string)          (* len() of a rank-0 array *)
  | UnicodeDecodeError (byte : ascii). (* strict utf-8 decoding of [byte] *)

Inductive result (A : Type) : Type :=
  | Ok (a : A)
  | Raise (e : exn).
Arguments Ok {A} a.
Arguments Raise {A} e.

Definition rbind {A B} (r : result A) (k : A → result B) : result B :=
  match r with
  | Ok a => k a
  | Raise e => Raise e
  end.

Notation "'try!' x <- r ; k" := (rbind r (fun x => k))
  (at level 10, x name, r at level 100, k at level 200).

(** [for x in xs: ys.append(f(x))] where [f] may raise: the first raise,
    from the left, ends the loop. *)
Fixpoint rmap {A B} (f : A → result B) (xs : list A) : result (list B) :=
  match xs with
  | [] => Ok []
  | x :: xs' =>
      try! y <- f x;
      try! ys <- rmap f xs';
      Ok (y :: ys)
  end.

(** ** numpy arrays as netCDF4 returns them *)

(** One entry of a (masked) array: the stored value and its mask flag. *)
Abbreviation cell A := (A * bool)%type (only parsing).

Inductive shaped (A : Type) : Type :=
  | Rank0 (c : cell A)
  | Rank1 (cs : list (cell A))
  | Rank2 (rows : list (list (cell A))).
Arguments Rank0 {A} c.
Arguments Rank1 {A} cs.
Arguments Rank2 {A} rows.

Inductive ndarray : Type :=
  | char_array (a : shaped ascii)  (* dtype 'S1' *)
  | num_array (a : shaped Z).      (* a numeric dtype *)

(** What iterating over an array row yields. *)
Inductive np_scalar : Type :=
  | np_bytes_ (b : ascii)  (* isinstance(c, np.bytes_) *)
  | np_number (n : Z).

Definition smap {A B} (f : cell A → cell B) (a : shaped A) : shaped B :=
  match a with
  | Rank0 c => Rank0 (f c)
  | Rank1 cs => Rank1 (map f cs)
  | Rank2 rows => Rank2 (map (map f) rows)
  end.

(** [a.shape] *)
Definition sshape {A} (a : shaped A) : list nat :=
  match a with
  | Rank0 _ => []
  | Rank1 cs => [length cs]
  | Rank2 rows => [length rows; length (default [] (head rows))]
  end.

(** [len(a)]: the first axis; a rank-0 array has none. *)
Definition slen {A} (a : shaped A) : option nat :=
  match a with
  | Rank0 _ => None
  | Rank1 cs => Some (length cs)
  | Rank2 rows => Some (length rows)
  end.

(** The stored values, row-major. *)
Definition svalues {A} (a : shaped A) : list A :=
  match a with
  | Rank0 c => [c.1]
  | Rank1 cs => map fst cs
  | Rank2 rows => map fst (concat rows)
  end.

Definition shape (a : ndarray) : list nat :=
  match a with
  | char_array s => sshape s
  | num_array s => sshape s
  end.

Definition len (a : ndarray) : result nat :=
  match match a with char_array s => slen s | num_array s => slen s end with
  | Some n => Ok n
  | None => Raise (TypeError "len() of unsized object")
  end.

(** The stored values of an array as numpy scalars, row-major. *)
Definition values (a : ndarray) : list np_scalar :=
  match a with
  | char_array s => map np_bytes_ (svalues s)
  | num_array s => map np_number (svalues s)
  end.

(** The zero of a dtype: the NUL byte for 'S1', 0 for a number. *)
Definition is_zero (v : np_scalar) : bool :=
  match v with
  | np_bytes_ b => bool_decide (b = zero)
  | np_number n => bool_decide (n = 0%Z)
  end.

(** [np.zeros_like(a)]: same dtype, same shape (and, for a masked array,
    the same mask); every stored value is the zero of the dtype. *)
Definition zeros_like (a : ndarray) : ndarray :=
  match a with
  | char_array s => char_array (smap (λ c, (zero, c.2)) s)
  | num_array s => num_array (smap (λ c, (0%Z, c.2)) s)
  end.

(** [np.array([0])] *)
Definition array_of_zero : ndarray := num_array (Rank1 [(0%Z, false)]).

(** One row of a table, as the sequence of entries iteration yields. *)
Abbreviation row := (list (cell np_scalar)) (only parsing).

Definition rows_of (a : ndarray) : option (list row) :=
  match a with
  | char_array (Rank2 rs) => Some (map (map (λ c, (np_bytes_ c.1, c.2))) rs)
  | num_array (Rank2 rs) => Some (map (map (λ c, (np_number c.1, c.2))) rs)
  | _ => None
  end.

(** [np.ma.is_masked(r)]: some entry of [r] is masked. *)
Definition is_masked (r : row) : bool := existsb snd r.

(** [r.compressed()]: the entries that are not masked. *)
Definition compressed (r : row) : list np_scalar :=
  map fst (filter (λ c, c.2 = false) r).

(** The entries the decoder iterates over:
    [r.compressed() if np.ma.is_masked(r) else r]. *)
Definition name_bytes_of (r : row) : list np_scalar :=
  if is_masked r then compressed r else map fst r.

(** ** Python strings *)

(** [str.isspace] on one character (code points below 256). *)
Definition py_isspace (c : ascii) : bool :=
  let n := nat_of_ascii c in
  (((9 <=? n) && (n <=? 13)) || ((28 <=? n) && (n <=? 32))
   || (n =? 133) || (n =? 160))%nat.

Fixpoint lstrip (s : string) : string :=
  match s with
  | String c s' => if py_isspace c then lstrip s' else s
  | EmptyString => EmptyString
  end.

(** [s.strip()] *)
Definition strip (s : string) : string :=
  String.rev (lstrip (String.rev (lstrip s))).

(** ["".join(parts)] *)
Definition join (parts : list string) : string := foldr String.append "" parts.

(** [bytes([b]).decode("utf-8")] and [... .decode("utf-8", errors="ignore")]
    on a single byte: a byte below 0x80 is the character of that code; any
    other single byte is not a complete utf-8 sequence. *)
Inductive decode_errors : Type := strict | ignore.

Definition decode_utf8 (errors : decode_errors) (b : ascii) : result string :=
  if (nat_of_ascii b <? 128)%nat then Ok (String b "")
  else match errors with
       | strict => Raise (UnicodeDecodeError b)
       | ignore => Ok ""
       end.

(** [c.tobytes().decode("utf-8", ...) if isinstance(c, np.bytes_) else str(c)] *)
Definition decode_unit (errors : decode_errors) (c : np_scalar) : result string :=
  match c with
  | np_bytes_ b => decode_utf8 errors b
  | np_number n => Ok (pretty n)
  end.

(** ["".join(<decode_unit c> for c in name_bytes).strip()] *)
Definition decode_name (errors : decode_errors) (r : row) : result string :=
  try! parts <- rmap (decode_unit errors) (name_bytes_of r);
  Ok (strip (join parts)).

(** The placeholder [f"Var_{i+1}"] of the inspector. *)
Definition placeholder (i : nat) : string := "Var_" +:+ pretty (i + 1)%nat.

(** The inspector's row decoder, lines 24-33 of total_variables_in_efile.py:
    [try: name_str = ... except Exception: name_str = f"Var_{i+1}"]. *)
Definition decode_name_or_placeholder (i : nat) (r : row) : string :=
  match decode_name ignore r with
  | Ok s => s
  | Raise _ => placeholder i
  end.

(** Helpers to write tables down. *)
Definition plain (s : string) : list (cell ascii) :=
  map (λ c, (c, false)) (list_ascii_of_string s).
Definition padded (s : string) (pad : nat) : list (cell ascii) :=
  plain s ++ replicate pad (zero, true).

(** ** The netCDF file and the world around a reader *)

(** A netCDF file: [dataset.dimensions] (name to size) and
    [dataset.variables] (name to the array read by [var[:]]). *)
Record NcFile : Type := mkNcFile {
  dimensions : gmap string nat;
  variables : gmap string ndarray
}.

(** The file store, the handles that are open, the next handle to hand
    out, and what [print] has written. *)
Record World : Type := mkWorld {
  fs : gmap string NcFile;
  open_handles : gset nat;
  next_handle : nat;
  stdout : list string
}.

(** An open [nc.Dataset]: its handle and the file it reads. *)
Record Dataset : Type := mkDataset {
  handle : nat;
  content : NcFile
}.

(** Computations that read and change the world and may raise. *)
Definition M (A : Type) : Type := World → result A * World.

Definition ret {A} (a : A) : M A := λ w, (Ok a, w).

Definition bind {A B} (m : M A) (k : A → M B) : M B :=
  λ w, match m w with
       | (Ok a, w') => k a w'
       | (Raise e, w') => (Raise e, w')
       end.

Definition lift {A} (r : result A) : M A := λ w, (r, w).

Notation "'do' x <- m ; k" := (bind m (fun x => k))
  (at level 10, x name, m at level 100, k at level 200).

(** [nc.Dataset(file_path, mode='r')] *)
Definition nc_Dataset (file_path : string) : M Dataset :=
  λ w, match fs w !! file_path with
       | None => (Raise (OSError file_path), w)
       | Some f =>
           (Ok (mkDataset (next_handle w) f),
            mkWorld (fs w) ({[next_handle w]} ∪ open_handles w)
                    (S (next_handle w)) (stdout w))
       end.

(** [dataset.close()] *)
Definition close (dataset : Dataset) : M unit :=
  λ w, (Ok tt,
        mkWorld (fs w) (open_handles w ∖ {[handle dataset]})
                (next_handle w) (stdout w)).

(** [print(line)] *)
Definition print (line : string) : M unit :=
  λ w, (Ok tt, mkWorld (fs w) (open_handles w) (next_handle w) (stdout w ++ [line])).

(** [mapping[key]] *)
Definition getitem {V} (mapping : gmap string V) (key : string) : result V :=
  match mapping !! key with
  | Some v => Ok v
  | None => Raise (KeyError key)
  end.

(** ** read_exodus_file (nodal_variables_from_efile.py, lines 9-52) *)

Record ExtractedData : Type := mkExtractedData {
  time_steps : ndarray;
  coordinates : ndarray * ndarray * ndarray;
  nodal_data : gmap string ndarray;
  nodal_vars : list string;
  mesh_shape : nat * option nat
}.

(** Line 14. *)
Definition read_time_steps (f : NcFile) : ndarray :=
  match variables f !! "time_whole" with
  | Some a => a
  | None => array_of_zero
  end.

(** Lines 17-19. *)
Definition read_coordinates (f : NcFile) : result (ndarray * ndarray * ndarray) :=
  try! x <- getitem (variables f) "coordx";
  try! y <- getitem (variables f) "coordy";
  let z := match variables f !! "coordz" with
           | Some a => a
           | None => zeros_like x
           end in
  Ok (x, y, z).

(** [dataset["name_nod_var"][i, :]] on the netCDF4 variable. *)
Definition name_nod_var_row (f : NcFile) (i : nat) : result row :=
  match variables f !! "name_nod_var" with
  | None => Raise (IndexError "name_nod_var not found in /")
  | Some a =>
      match rows_of a with
      | None => Raise (ValueError "slicing expression exceeds the number of dimensions of the variable")
      | Some rs =>
          match rs !! i with
          | Some r => Ok r
          | None => Raise (IndexError "index exceeds dimension bounds")
          end
      end
  end.

(** Lines 25-29: the name loop.  The decoding is strict and stands in no
    [try]. *)
Definition read_nod_var_names (f : NcFile) (num_nod_var : nat) : result (list string) :=
  rmap (λ i, try! r <- name_nod_var_row f i; decode_name strict r)
       (seq 0 num_nod_var).

(** [f"vals_nod_var{i+1}"] *)
Definition vals_nod_var (i : nat) : string := "vals_nod_var" +:+ pretty (i + 1)%nat.

(** Line 38. *)
Definition warning (var_name : string) : string :=
  "Warning: Variable '" +:+ var_name +:+ "' not found in dataset.".

(** Lines 32-38: the value loop, entered at position [i] with the names
    still to come and the dictionary built so far. *)
Fixpoint read_node_data (f : NcFile) (i : nat) (names : list string)
    (node_data : gmap string ndarray) : M (gmap string ndarray) :=
  match names with
  | [] => ret node_data
  | name :: rest =>
      let var_name := vals_nod_var i in
      match variables f !! var_name with
      | Some a => read_node_data f (S i) rest (<[name := a]> node_data)
      | None =>
          do _ <- print (warning var_name);
          read_node_data f (S i) rest node_data
      end
  end.

Definition read_exodus_file (file_path : string) : M ExtractedData :=
  do dataset <- nc_Dataset file_path;
  let f := content dataset in
  let time_steps := read_time_steps f in
  do xyz <- lift (read_coordinates f);
  do num_nod_var <- lift (getitem (dimensions f) "num_nod_var");
  do nod_var_names <- lift (read_nod_var_names f num_nod_var);
  do node_data <- read_node_data f 0 nod_var_names ∅;
  do num_nodes <- lift (len xyz.1.1);
  let num_elements := dimensions f !! "num_elem" in
  do _ <- close dataset;
  ret (mkExtractedData time_steps xyz node_data nod_var_names
                       (num_nodes, num_elements)).

(** ** inspect_exodus_file (total_variables_in_efile.py, lines 5-49) *)

(** Lines 13-18: the name tables that are present, in insertion order. *)
Definition name_tables (f : NcFile) : list (string * ndarray) :=
  omap (λ p : string * string, (λ a, (p.1, a)) <$> variables f !! p.2)
       [("Global Variables", "name_glo_var");
        ("Nodal Variables", "name_nod_var");
        ("Elemental Variables", "name_elem_var")].

(** [var_array[i, :]] on the numpy array. *)
Definition array_row (var_array : ndarray) (i : nat) : result row :=
  match rows_of var_array with
  | None => Raise (IndexError "too many indices for array")
  | Some rs =>
      match rs !! i with
      | Some r => Ok r
      | None => Raise (IndexError "index out of bounds")
      end
  end.

(** Lines 22-34: one table.  [var_array.shape[0]] raises on a rank-0
    array. *)
Definition decode_table (var_array : ndarray) : result (list string) :=
  match shape var_array with
  | [] => Raise (IndexError "tuple index out of range")
  | n :: _ =>
      rmap (λ i, try! r <- array_row var_array i;
                 Ok (decode_name_or_placeholder i r))
           (seq 0 n)
  end.

(** Lines 21-35. *)
Definition decode_tables (tables : list (string * ndarray))
    : result (list (string * list string)) :=
  rmap (λ t : string * ndarray, try! names <- decode_table t.2; Ok (t.1, names)) tables.

(** Lines 40-46, per variable.  The entry keeps what the text is made
    from: the entries of a rank-1 character array, or else shape and
    dtype kind. *)
Inductive var_info : Type :=
  | info_entries (vs : list (cell ascii))
  | info_shape_type (shp : list nat) (is_char : bool).

Definition describe (var_data : ndarray) : var_info :=
  match var_data with
  | char_array (Rank1 cs) => info_entries cs
  | char_array s => info_shape_type (sshape s) true
  | num_array s => info_shape_type (sshape s) false
  end.

Definition inspect_exodus_file (file_path : string)
    : M (gmap string var_info * list (string * list string)) :=
  do dataset <- nc_Dataset file_path;
  let f := content dataset in
  do user_friendly_names <- lift (decode_tables (name_tables f));
  let variables_info := describe <$> variables f in
  do _ <- close dataset;
  ret (variables_info, user_friendly_names).

(** ** Sample files *)

Definition char_table (names : list (list (cell ascii))) : ndarray :=
  char_array (Rank2 names).
Definition reals (xs : list Z) : ndarray :=
  num_array (Rank1 (map (λ x, (x, false)) xs)).
Definition real_table (rows : list (list Z)) : ndarray :=
  num_array (Rank2 (map (map (λ x, (x, false))) rows)).

Definition world_of (path : string) (f : NcFile) : World :=
  mkWorld {[path := f]} ∅ 0 [].

(** num_nod_var = 2, names Temp and Pressure, only vals_nod_var1. *)
Definition temp_pressure_file : NcFile :=
  mkNcFile
    (list_to_map [("num_nod_var", 2); ("num_nodes", 3); ("len_name", 8)])
    (list_to_map
       [("coordx", reals [0; 1; 2]%Z);
        ("coordy", reals [0; 0; 1]%Z);
        ("name_nod_var", char_table [padded "Temp" 4; padded "Pressure" 0]);
        ("vals_nod_var1", real_table [[10; 11; 12]; [20; 21; 22]]%Z)]).

(** A mesh without the x coordinates. *)
Definition no_coordx_file : NcFile :=
  mkNcFile
    (list_to_map [("num_nod_var", 0); ("num_nodes", 3)])
    (list_to_map [("coordy", reals [0; 0; 1]%Z)]).

(** A file whose nodal name table is a rank-1 array. *)
Definition flat_names_file : NcFile :=
  mkNcFile ∅ (list_to_map [("name_nod_var", char_array (Rank1 (plain "Temp")))]).

(** A mesh with coordinates and no nodal variables: the dimension
    num_nod_var is not declared. *)
Definition mesh_only_file : NcFile :=
  mkNcFile
    (list_to_map [("num_nodes", 3); ("num_elem", 1)])
    (list_to_map
       [("coordx", reals [0; 1; 2]%Z);
        ("coordy", reals [0; 0; 1]%Z)]).

(** The same mesh with the dimension declared of size 0. *)
Definition zero_nod_var_file : NcFile :=
  mkNcFile
    (list_to_map [("num_nodes", 3); ("num_elem", 1); ("num_nod_var", 0)])
    (variables mesh_only_file).

(** A name stored in Latin-1: "Température" has the byte 0xE9. *)
Definition latin1_row : list (cell ascii) :=
  plain "Temp" ++ [(ascii_of_nat 233, false)] ++ plain "rature".

Definition latin1_file : NcFile :=
  mkNcFile
    (list_to_map [("num_nod_var", 2); ("num_nodes", 3)])
    (list_to_map
       [("coordx", reals [0; 1; 2]%Z);
        ("coordy", reals [0; 0; 1]%Z);
        ("name_nod_var", char_table [latin1_row; padded "Pressure" 3]);
        ("vals_nod_var1", real_table [[10; 11; 12]]%Z);
        ("vals_nod_var2", real_table [[20; 21; 22]]%Z)]).

(** Two rows that decode to the same name: "T" and "T" followed by a
    blank. *)
Definition twice_T_file : NcFile :=
  mkNcFile
    (list_to_map [("num_nod_var", 2); ("num_nodes", 3)])
    (list_to_map
       [("coordx", reals [0; 1; 2]%Z);
        ("coordy", reals [0; 0; 1]%Z);
        ("name_nod_var", char_table [padded "T" 2; padded "T " 1]);
        ("vals_nod_var1", real_table [[10; 11; 12]]%Z);
        ("vals_nod_var2", real_table [[20; 21; 22]]%Z)]).

(** ** The readers as functions of the file *)

(** One pass of the loop body on the dictionary. *)
Definition bind_value (f : NcFile) (i : nat) (name : string)
    (node_data : gmap string ndarray) : gmap string ndarray :=
  match variables f !! vals_nod_var i with
  | Some a => <[name := a]> node_data
  | None => node_data
  end.

(** What one pass prints. *)
Definition warn_value (f : NcFile) (i : nat) : list string :=
  match variables f !! vals_nod_var i with
  | Some _ => []
  | None => [warning (vals_nod_var i)]
  end.

(** The dictionary the value loop ends with, entered at position [i]. *)
Fixpoint node_data_from (f : NcFile) (i : nat) (names : list string)
    (node_data : gmap string ndarray) : gmap string ndarray :=
  match names with
  | [] => node_data
  | name :: rest => node_data_from f (S i) rest (bind_value f i name node_data)
  end.

(** The lines the value loop prints, entered at position [i]. *)
Fixpoint warnings_from (f : NcFile) (i : nat) (names : list string) : list string :=
  match names with
  | [] => []
  | _ :: rest => warn_value f i ++ warnings_from f (S i) rest
  end.

(** The world after [lines] were printed, after a reader opened its
    handle, and after handle [h] was closed. *)
Definition printed (w : World) (lines : list string) : World :=
  mkWorld (fs w) (open_handles w) (next_handle w) (stdout w ++ lines).

Definition opened (w : World) : World :=
  mkWorld (fs w) ({[next_handle w]} ∪ open_handles w) (S (next_handle w)) (stdout w).

Definition closed (h : nat) (w : World) : World :=
  mkWorld (fs w) (open_handles w ∖ {[h]}) (next_handle w) (stdout w).

(** The file-dependent part of [read_exodus_file], without the world. *)
Definition extract (f : NcFile) : result ExtractedData :=
  try! xyz <- read_coordinates f;
  try! num_nod_var <- getitem (dimensions f) "num_nod_var";
  try! nod_var_names <- read_nod_var_names f num_nod_var;
  try! num_nodes <- len xyz.1.1;
  Ok (mkExtractedData (read_time_steps f) xyz
        (node_data_from f 0 nod_var_names ∅) nod_var_names
        (num_nodes, dimensions f !! "num_elem")).

(** What a run prints: the warnings of the value loop, when it is reached. *)
Definition extract_output (f : NcFile) : list string :=
  match read_coordinates f with
  | Raise _ => []
  | Ok _ =>
      match getitem (dimensions f) "num_nod_var" with
      | Raise _ => []
      | Ok n =>
          match read_nod_var_names f n with
          | Raise _ => []
          | Ok names => warnings_from f 0 names
          end
      end
  end.

(** ** Predicates used in the statements *)

(** The handle a reader opens in world [w] is [next_handle w].  The
    reader releases it when that handle is not among the open ones once
    the call is over. *)
Definition releases_handle {A} (reader : string → M A) (path : string) (w : World) : Prop :=
  next_handle w ∉ open_handles (reader path w).2.

(** How a reader leaves the handle it opened, by the way the call ends. *)
Definition handle_by_exit {A} (reader : string → M A) (path : string) (w : World) : Prop :=
  match reader path w with
  | (Ok _, w') => next_handle w ∉ open_handles w'
  | (Raise (OSError _), w') => w' = w
  | (Raise _, w') => next_handle w ∈ open_handles w'
  end.

(** The exceptions of [read_exodus_file] once the file is open: KeyError
    for coordx, coordy or num_nod_var, the index and rank errors of the
    name table, UnicodeDecodeError of a name byte, TypeError of [len]. *)
Definition raised_after_open (e : exn) : Prop :=
  match e with
  | OSError _ => False
  | KeyError key => key = "coordx" ∨ key = "coordy" ∨ key = "num_nod_var"
  | _ => True
  end.

(** The reading of C2: the read succeeds with no names and no values. *)
Definition reads_empty_variable_set (path : string) (w : World) : Prop :=
  ∃ data, (read_exodus_file path w).1 = Ok data
          ∧ nodal_vars data = [] ∧ nodal_data data = ∅.

(** A row whose every position is masked. *)
Definition fully_masked (r : row) : Prop := ∀ c, c ∈ r → c.2 = true.

(** A row that strict decoding accepts: every byte among the entries the
    decoder iterates over is below 0x80. *)
Definition decodable (r : row) : Prop :=
  ∀ b, np_bytes_ b ∈ name_bytes_of r → (nat_of_ascii b < 128)%nat.

(** A file [read_exodus_file] accepts, with [N] declared nodal variables:
    the count dimension says [N], both required coordinates are there and
    x has a length, and the name table has a decodable row for each of the
    [N] positions. *)
Definition valid_file (f : NcFile) (N : nat) : Prop :=
  dimensions f !! "num_nod_var" = Some N
  ∧ (∃ x n, variables f !! "coordx" = Some x ∧ len x = Ok n)
  ∧ is_Some (variables f !! "coordy")
  ∧ (∀ i, i < N → ∃ r, name_nod_var_row f i = Ok r ∧ decodable r).

(** ** visualize_data (nodal_variables_from_efile.py, lines 54-64)

    The function is embedded up to the dictionary it hands to
    [pd.DataFrame]; what pandas and plotly make of it is outside the
    embedding. *)

(** [a[t]] for a non-negative integer [t]: the entry or row at [t]. *)
Definition index_first_axis (a : ndarray) (t : nat) : result ndarray :=
  let pick {A} (mk : shaped A → ndarray) (s : shaped A) : result ndarray :=
    match s with
    | Rank0 _ => Raise (IndexError "too many indices for array")
    | Rank1 cs =>
        match cs !! t with
        | Some c => Ok (mk (Rank0 c))
        | None => Raise (IndexError "index out of bounds")
        end
    | Rank2 rows =>
        match rows !! t with
        | Some r => Ok (mk (Rank1 r))
        | None => Raise (IndexError "index out of bounds")
        end
    end in
  match a with
  | char_array s => pick char_array s
  | num_array s => pick num_array s
  end.

(** Line 57: [data["nodal_data"][selected_var][selected_time_idx]]. *)
Definition var_values (data : ExtractedData) (selected_var : string)
    (selected_time_idx : nat) : result ndarray :=
  try! values_over_time <- getitem (nodal_data data) selected_var;
  index_first_axis values_over_time selected_time_idx.

(** Lines 60-64: the dictionary literal
    [{'x': x, 'y': y, selected_var: var_values}]; a key written twice
    keeps the later value. *)
Definition frame_columns (x y : ndarray) (selected_var : string)
    (values : ndarray) : gmap string ndarray :=
  <[selected_var := values]> (<["y" := y]> (<["x" := x]> ∅)).

(** Lines 56-64. *)
Definition visualize_frame (data : ExtractedData) (selected_var : string)
    (selected_time_idx : nat) : result (gmap string ndarray) :=
  let '(x, y, z) := coordinates data in
  try! values <- var_values data selected_var selected_time_idx;
  Ok (frame_columns x y selected_var values).

(** ** The two scripts

    What the scripts show once the data is read (Streamlit widgets,
    pandas, plotly) is taken as a parameter [render], which may raise and
    does not touch the disk. *)

(** What the uploader of the visualizer hands over.  It takes any file
    type: the bytes are those of a file netCDF4 can open, or they are
    not. *)
Inductive uploaded : Type :=
  | netcdf_bytes (f : NcFile)
  | other_bytes.

(** The disk under the visualizer script: the world of the readers, whose
    file store holds the files netCDF4 can open, and the paths of the
    files on disk that it cannot open. *)
Record Disk : Type := mkDisk {
  readable : World;
  unreadable : gset string
}.

(** Computations of the script: they change the disk and may raise. *)
Definition Script (A : Type) : Type := Disk → result A * Disk.

Definition sret {A} (a : A) : Script A := λ d, (Ok a, d).

Definition sbind {A B} (m : Script A) (k : A → Script B) : Script B :=
  λ d, match (m d).1 with
       | Ok a => k a (m d).2
       | Raise e => (Raise e, (m d).2)
       end.

Notation "'run' x <- m ; k" := (sbind m (fun x => k))
  (at level 10, x name, m at level 100, k at level 200).

(** A call of a reader from the script. *)
Definition on_world {A} (m : M A) : Script A :=
  λ d, ((m (readable d)).1, mkDisk (m (readable d)).2 (unreadable d)).

Definition lift_result {A} (r : result A) : Script A := λ d, (r, d).

(** [temp_file.write(uploaded_file.read())]: the file at [path] now
    holds the uploaded bytes. *)
Definition write_temp (path : string) (uploaded_file : uploaded) : Script unit :=
  λ d,
    let w := readable d in
    (Ok tt,
     match uploaded_file with
     | netcdf_bytes f =>
         mkDisk (mkWorld (<[path := f]> (fs w)) (open_handles w)
                         (next_handle w) (stdout w))
                (unreadable d ∖ {[path]})
     | other_bytes =>
         mkDisk (mkWorld (delete path (fs w)) (open_handles w)
                         (next_handle w) (stdout w))
                ({[path]} ∪ unreadable d)
     end).

(** [os.remove(path)] *)
Definition os_remove (path : string) : Script unit :=
  λ d,
    let w := readable d in
    if decide (is_Some (fs w !! path) ∨ path ∈ unreadable d)
    then (Ok tt,
          mkDisk (mkWorld (delete path (fs w)) (open_handles w)
                          (next_handle w) (stdout w))
                 (unreadable d ∖ {[path]}))
    else (Raise (OSError path), d).

(** [try: body except Exception as e: handler(e)] *)
Definition try_except {A} (body : Script A) (handler : exn → Script A) : Script A :=
  λ d, match (body d).1 with
       | Ok a => (Ok a, (body d).2)
       | Raise e => handler e (body d).2
       end.

(** Lines 87-123 of nodal_variables_from_efile.py, for an upload written
    to [temp_filename].  The value is the exception [st.error] reports,
    if any. *)
Definition visualizer_script {R} (uploaded_file : uploaded) (temp_filename : string)
    (render : ExtractedData → result R) : Script (option exn) :=
  run _ <- write_temp temp_filename uploaded_file;
  try_except
    (run data <- on_world (read_exodus_file temp_filename);
     run _ <- os_remove temp_filename;
     run _ <- lift_result (render data);
     sret None)
    (λ e, sret (Some e)).

(** [f.write(uploaded_file.getbuffer())] of an upload that netCDF4 can
    open, to [path], replacing what was there. *)
Definition write_upload (path : string) (upload : NcFile) : M unit :=
  λ w, (Ok tt, mkWorld (<[path := upload]> (fs w)) (open_handles w)
                       (next_handle w) (stdout w)).

(** Lines 56-72 of total_variables_in_efile.py: the upload goes to the
    fixed path temp_exodus_file.e and the inspection stands in no [try]. *)
Definition inspector_script {R} (upload : NcFile)
    (render : gmap string var_info * list (string * list string) → result R) : M R :=
  do _ <- write_upload "temp_exodus_file.e" upload;
  do inspected <- inspect_exodus_file "temp_exodus_file.e";
  lift (render inspected).

(** The row of a name table that stores [s], one unmasked byte per
    character. *)
Definition bytes_row (s : string) : row :=
  map (λ c, (np_bytes_ c, false)) (list_ascii_of_string s).

(** The first byte of a row that strict decoding rejects. *)
Definition first_bad_byte (r : row) : option ascii :=
  head (omap (λ c, match c with
                   | np_bytes_ b => if (nat_of_ascii b <? 128)%nat then None else Some b
                   | np_number _ => None
                   end) (name_bytes_of r)).

(** An entry [errors="ignore"] keeps: a masked entry (never decoded), a
    number, or a byte below 0x80. *)
Definition survives_ignore (c : np_scalar * bool) : bool :=
  match c.1 with
  | np_bytes_ b => c.2 || (nat_of_ascii b <? 128)%nat
  | np_number _ => true
  end.

(** The row without its unmasked bytes of 0x80 and above. *)
Definition without_high_bytes (r : row) : row :=
  filter (λ c, survives_ignore c = true) r.

(** The positions below [N] whose value array is absent from the file. *)
Definition absent_positions (f : NcFile) (N : nat) : list nat :=
  filter (λ i, variables f !! vals_nod_var i = None) (seq 0 N).

(** Every open handle was handed out before: it is below the next one. *)
Definition handles_below_next (w : World) : Prop :=
  ∀ h, h ∈ open_handles w → h < next_handle w.

(** A string that does not begin with white space. *)
Definition starts_clean (s : string) : Prop :=
  match s with
  | String c _ => py_isspace c = false
  | EmptyString => True
  end.

(** Three variables declared, two rows in the name table. *)
Definition short_table_file : NcFile :=
  mkNcFile
    (list_to_map [("num_nod_var", 3); ("num_nodes", 3)])
    (list_to_map
       [("coordx", reals [0; 1; 2]%Z);
        ("coordy", reals [0; 0; 1]%Z);
        ("name_nod_var", char_table [padded "Temp" 4; padded "Pressure" 0])]).

(** The account of handles over one call of a reader: the handles stay
    below the next one; a returning call leaves the open set as it found
    it; a call that cannot open the file changes nothing; a call that
    raises after the open leaves exactly one handle more, a new one. *)
Definition handles_accounted {A} (reader : string → M A) (path : string)
    (w : World) : Prop :=
  handles_below_next (reader path w).2
  ∧ match (reader path w).1 with
    | Ok _ =>
        open_handles (reader path w).2 = open_handles w
        ∧ next_handle (reader path w).2 = S (next_handle w)
    | Raise (OSError _) => (reader path w).2 = w
    | Raise _ =>
        (open_handles (reader path w).2 = {[next_handle w]} ∪ open_handles w)
        ∧ (next_handle w ∉ open_handles w)
        ∧ next_handle (reader path w).2 = S (next_handle w)
    end.

(** A name table the inspector can walk: an array of rank 2, or an array
    of rank 1 without entries. *)
Definition inspectable_table (a : ndarray) : Prop :=
  is_Some (rows_of a) ∨ shape a = [0].

(** The variables the inspector reads name tables from. *)
Definition name_table_fields : list string :=
  ["name_glo_var"; "name_nod_var"; "name_elem_var"].

(** The inspector's categories and the variable each one is read from,
    in the order of lines 13-18. *)
Definition category_fields : list (string * string) :=
  [("Global Variables", "name_glo_var");
   ("Nodal Variables", "name_nod_var");
   ("Elemental Variables", "name_elem_var")].

(** A file whose coordx is a single number (rank 0); the rest is as in
    [temp_pressure_file]. *)
Definition scalar_coordx_file : NcFile :=
  mkNcFile
    (dimensions temp_pressure_file)
    (<["coordx" := num_array (Rank0 (0%Z, false))]> (variables temp_pressure_file)).

(** * Properties *)

(** ** The sample files, run *)

Example decode_temp :
  decode_name strict (map (λ c, (np_bytes_ c.1, c.2)) (padded "Temp" 4)) = Ok "Temp".
Proof. vm_compute. reflexivity. Qed.

Example placeholder_3 : placeholder 2 = "Var_3".
Proof. vm_compute. reflexivity. Qed.

Example read_temp_pressure :
  (read_exodus_file "a.e" (world_of "a.e" temp_pressure_file)).1
  = Ok (mkExtractedData
          array_of_zero
          (reals [0; 1; 2]%Z, reals [0; 0; 1]%Z, reals [0; 0; 0]%Z)
          {[ "Temp" := real_table [[10; 11; 12]; [20; 21; 22]]%Z ]}
          ["Temp"; "Pressure"]
          (3, None)).
Proof. vm_compute. reflexivity. Qed.

(** ** The value loop as a function of the file *)

Lemma closed_not_open h w : h ∉ open_handles (closed h w).
Proof. simpl. apply not_elem_of_difference. right. by apply elem_of_singleton. Qed.

Lemma opened_is_open w lines : next_handle w ∈ open_handles (printed (opened w) lines).
Proof. simpl. apply elem_of_union_l. by apply elem_of_singleton. Qed.

Lemma printed_nil w : printed w [] = w.
Proof. destruct w. unfold printed. simpl. by rewrite app_nil_r. Qed.

Lemma printed_app w l1 l2 : printed (printed w l1) l2 = printed w (l1 ++ l2).
Proof. unfold printed. simpl. by rewrite app_assoc. Qed.

Lemma read_node_data_run f names : ∀ i node_data w,
  read_node_data f i names node_data w
  = (Ok (node_data_from f i names node_data), printed w (warnings_from f i names)).
Proof.
  induction names as [|name rest IH]; intros i node_data w; simpl.
  - unfold ret. by rewrite printed_nil.
  - unfold bind_value, warn_value.
    destruct (variables f !! vals_nod_var i) as [a|] eqn:E.
    + by rewrite IH.
    + unfold bind, print. rewrite IH.
      unfold printed. cbn [fs open_handles next_handle stdout].
      by rewrite <- app_assoc.
Qed.

Lemma node_data_from_app f l1 l2 : ∀ i node_data,
  node_data_from f i (l1 ++ l2) node_data
  = node_data_from f (i + length l1) l2 (node_data_from f i l1 node_data).
Proof.
  induction l1 as [|x l1 IH]; intros i node_data; simpl.
  - by rewrite Nat.add_0_r.
  - rewrite IH. f_equal. lia.
Qed.

Lemma warnings_from_app f l1 l2 : ∀ i,
  warnings_from f i (l1 ++ l2)
  = (warnings_from f i l1 ++ warnings_from f (i + length l1) l2)%list.
Proof.
  induction l1 as [|x l1 IH]; intros i; simpl.
  - by rewrite Nat.add_0_r.
  - rewrite IH, <- app_assoc. do 3 f_equal. lia.
Qed.

(** A run of [read_exodus_file], case by case. *)
Lemma read_exodus_file_run path w :
  read_exodus_file path w =
  match fs w !! path with
  | None => (Raise (OSError path), w)
  | Some f =>
      match extract f with
      | Ok data => (Ok data, closed (next_handle w) (printed (opened w) (extract_output f)))
      | Raise e => (Raise e, printed (opened w) (extract_output f))
      end
  end.
Proof.
  unfold read_exodus_file, bind at 1, nc_Dataset.
  destruct (fs w !! path) as [f|] eqn:Ef; [|done].
  simpl. fold (opened w).
  unfold extract, extract_output, bind, lift.
  destruct (read_coordinates f) as [xyz|e]; simpl;
    [|by rewrite printed_nil].
  destruct (getitem (dimensions f) "num_nod_var") as [n|e]; simpl;
    [|by rewrite printed_nil].
  destruct (read_nod_var_names f n) as [names|e]; simpl;
    [|by rewrite printed_nil].
  rewrite read_node_data_run.
  destruct (len xyz.1.1) as [k|e]; simpl; done.
Qed.

(** A run of [inspect_exodus_file], case by case. *)
Lemma inspect_exodus_file_run path w :
  inspect_exodus_file path w =
  match fs w !! path with
  | None => (Raise (OSError path), w)
  | Some f =>
      match decode_tables (name_tables f) with
      | Ok names => (Ok (describe <$> variables f, names), closed (next_handle w) (opened w))
      | Raise e => (Raise e, opened w)
      end
  end.
Proof.
  unfold inspect_exodus_file, bind at 1, nc_Dataset.
  destruct (fs w !! path) as [f|] eqn:Ef; [|done].
  simpl. fold (opened w). unfold bind, lift.
  destruct (decode_tables (name_tables f)); done.
Qed.

(** ** C1: the dataset handle on the exit paths *)

(** C1: the handle is not released on the exception path.  On a file
    without coordx, [read_exodus_file] raises KeyError at line 17 and
    never reaches [dataset.close()] at line 44: the call ends with the
    handle it opened still open.  On a file whose name_nod_var has rank 1,
    [inspect_exodus_file] raises IndexError at line 24 and never reaches
    [dataset.close()] at line 48: it ends the same way. *)
Theorem C1_handle_left_open_on_error :
  read_exodus_file "mesh.e" (world_of "mesh.e" no_coordx_file)
    = (Raise (KeyError "coordx"), opened (world_of "mesh.e" no_coordx_file))
  ∧ ¬ releases_handle read_exodus_file "mesh.e" (world_of "mesh.e" no_coordx_file)
  ∧ (∃ what, inspect_exodus_file "flat.e" (world_of "flat.e" flat_names_file)
             = (Raise (IndexError what), opened (world_of "flat.e" flat_names_file)))
  ∧ ¬ releases_handle inspect_exodus_file "flat.e" (world_of "flat.e" flat_names_file).
Proof.
  unfold releases_handle.
  rewrite read_exodus_file_run, inspect_exodus_file_run.
  split; [vm_compute; reflexivity|].
  split; [|split; [eexists; vm_compute; reflexivity|]].
  - intros H. apply H. vm_compute. set_solver.
  - intros H. apply H. vm_compute. set_solver.
Qed.

(** The exceptions a loop over [rmap] raises are those of its body. *)
Lemma rmap_Raise {A B} (g : A → result B) xs e :
  rmap g xs = Raise e → ∃ x, x ∈ xs ∧ g x = Raise e.
Proof.
  induction xs as [|x xs IH]; simpl; intros H; [done|].
  destruct (g x) as [y|e'] eqn:E; simpl in H.
  - destruct (rmap g xs) as [ys|e'']; simpl in H; [done|].
    injection H as ->. destruct IH as (x' & Hx' & Hg); [done|].
    exists x'. split; [by right|done].
  - injection H as ->. exists x. split; [left|done].
Qed.

Lemma decode_name_strict_Raise r e :
  decode_name strict r = Raise e → ∃ b, e = UnicodeDecodeError b.
Proof.
  unfold decode_name. intros H.
  destruct (rmap (decode_unit strict) (name_bytes_of r)) as [parts|e'] eqn:E;
    simpl in H; [done|].
  injection H as ->. apply rmap_Raise in E as ([b|n] & _ & Hc); simpl in Hc; [|done].
  unfold decode_utf8 in Hc. destruct (nat_of_ascii b <? 128)%nat; [done|].
  injection Hc as <-. by eexists.
Qed.

Lemma extract_Raise f e : extract f = Raise e → raised_after_open e.
Proof.
  unfold extract, read_coordinates, getitem, read_nod_var_names, len.
  destruct (variables f !! "coordx") as [x|]; simpl;
    [|intros [= <-]; simpl; auto].
  destruct (variables f !! "coordy") as [y|]; simpl;
    [|intros [= <-]; simpl; auto].
  destruct (dimensions f !! "num_nod_var") as [n|]; simpl;
    [|intros [= <-]; simpl; auto].
  destruct (rmap _ (seq 0 n)) as [names|e'] eqn:E; simpl.
  - destruct (match x with char_array s => slen s | num_array s => slen s end);
      simpl; [done|]. by intros [= <-].
  - intros [= ->]. apply rmap_Raise in E as (i & _ & Hi).
    unfold name_nod_var_row in Hi.
    destruct (variables f !! "name_nod_var") as [a|]; simpl in Hi;
      [|by injection Hi as <-].
    destruct (rows_of a) as [rs|]; simpl in Hi; [|by injection Hi as <-].
    destruct (rs !! i) as [r|]; simpl in Hi; [|by injection Hi as <-].
    by apply decode_name_strict_Raise in Hi as [b ->].
Qed.

Lemma decode_tables_Raise ts e : decode_tables ts = Raise e → ∃ what, e = IndexError what.
Proof.
  unfold decode_tables. intros ([c a] & _ & H)%rmap_Raise. simpl in H.
  destruct (decode_table a) as [names|e'] eqn:E; simpl in H; [done|].
  injection H as ->. unfold decode_table in E.
  destruct (shape a) as [|n sh]; [injection E as <-; by eexists|].
  apply rmap_Raise in E as (i & _ & Hi).
  unfold array_row in Hi.
  destruct (rows_of a) as [rs|]; simpl in Hi; [|injection Hi as <-; by eexists].
  destruct (rs !! i) as [r|]; simpl in Hi; [done|injection Hi as <-; by eexists].
Qed.

(** The exit paths of the two readers, for every path and world:
    [dataset.close()] is executed on the return path and on no other. *)
Lemma close_on_return_path_only (path : string) (w : World) :
  handle_by_exit read_exodus_file path w ∧ handle_by_exit inspect_exodus_file path w.
Proof.
  unfold handle_by_exit.
  rewrite read_exodus_file_run, inspect_exodus_file_run.
  destruct (fs w !! path) as [f|]; [|done].
  split.
  - destruct (extract f) as [data|e] eqn:E.
    + apply closed_not_open.
    + apply extract_Raise in E.
      destruct e; try done; apply opened_is_open.
  - destruct (decode_tables (name_tables f)) as [names|e] eqn:E.
    + apply closed_not_open.
    + apply decode_tables_Raise in E as [what ->].
      apply (opened_is_open w []).
Qed.

(** ** C2: the nodal-variable count dimension *)

(** C2, as stated, fails: on a file without the dimension num_nod_var the
    read raises KeyError. *)
Lemma C2_absent_dimension_raises :
  dimensions mesh_only_file !! "num_nod_var" = None
  ∧ (read_exodus_file "mesh.e" (world_of "mesh.e" mesh_only_file)).1
    = Raise (KeyError "num_nod_var")
  ∧ ¬ reads_empty_variable_set "mesh.e" (world_of "mesh.e" mesh_only_file).
Proof.
  assert (H : (read_exodus_file "mesh.e" (world_of "mesh.e" mesh_only_file)).1
              = Raise (KeyError "num_nod_var")).
  { rewrite read_exodus_file_run. vm_compute. reflexivity. }
  split; [vm_compute; reflexivity|]. split; [exact H|].
  intros (data & Hdata & _). rewrite H in Hdata. discriminate.
Qed.

(** C2 (amended): [dataset.dimensions["num_nod_var"]] is read without a
    presence test.  For every file in which the dimension is absent the
    read raises KeyError: for num_nod_var when both required coordinates
    are present, for a missing coordinate otherwise.  A count of zero,
    with an empty name list and an empty value mapping, is what a file
    that declares num_nod_var of size 0 yields, and that read succeeds
    (coordinates present, x of rank 1 or more). *)
Theorem C2_count_dimension_required (path : string) (w : World) (f : NcFile) :
  fs w !! path = Some f →
  (dimensions f !! "num_nod_var" = None →
     (∃ key, (read_exodus_file path w).1 = Raise (KeyError key))
     ∧ (is_Some (variables f !! "coordx") → is_Some (variables f !! "coordy") →
        (read_exodus_file path w).1 = Raise (KeyError "num_nod_var")))
  ∧ (dimensions f !! "num_nod_var" = Some 0 →
     ∀ x n, variables f !! "coordx" = Some x → is_Some (variables f !! "coordy") →
            len x = Ok n →
            ∃ data, (read_exodus_file path w).1 = Ok data
                    ∧ nodal_vars data = [] ∧ nodal_data data = ∅).
Proof.
  intros Hf. rewrite read_exodus_file_run, Hf.
  unfold extract, read_coordinates, getitem.
  split.
  - intros Hdim. rewrite Hdim. split.
    + destruct (variables f !! "coordx") as [x|]; simpl; [|by eexists].
      destruct (variables f !! "coordy") as [y|]; simpl; by eexists.
    + intros [x ->] [y ->]. done.
  - intros Hdim x n Hx [y Hy] Hlen. rewrite Hx, Hy, Hdim. simpl.
    rewrite Hlen. simpl. eexists. split; [reflexivity|]. done.
Qed.

Lemma C2_count_dimension_required_witness :
  (∃ key, (read_exodus_file "mesh.e" (world_of "mesh.e" mesh_only_file)).1
          = Raise (KeyError key))
  ∧ ∃ data, (read_exodus_file "mesh.e" (world_of "mesh.e" zero_nod_var_file)).1 = Ok data
            ∧ nodal_vars data = [] ∧ nodal_data data = ∅.
Proof.
  split.
  - refine (proj1 (proj1 (C2_count_dimension_required "mesh.e"
                     (world_of "mesh.e" mesh_only_file) mesh_only_file _) _)).
    + vm_compute. reflexivity.
    + vm_compute. reflexivity.
  - refine (proj2 (C2_count_dimension_required "mesh.e"
                     (world_of "mesh.e" zero_nod_var_file) zero_nod_var_file _)
                  _ (reals [0; 1; 2]%Z) 3 _ _ _).
    + vm_compute. reflexivity.
    + vm_compute. reflexivity.
    + vm_compute. reflexivity.
    + vm_compute. eexists. reflexivity.
    + vm_compute. reflexivity.
Defined.

(** ** C3 and C4: rows of a name table *)

(** The inspector decodes with [errors="ignore"]: nothing raises. *)
Lemma decode_units_ignore cs : ∃ parts, rmap (decode_unit ignore) cs = Ok parts.
Proof.
  induction cs as [|c cs [parts IH]]; simpl; [by eexists|].
  rewrite IH. destruct c as [b|n]; simpl.
  - unfold decode_utf8. destruct (nat_of_ascii b <? 128)%nat; simpl; by eexists.
  - by eexists.
Qed.

Lemma decode_name_ignore r : ∃ s, decode_name ignore r = Ok s.
Proof.
  unfold decode_name. destruct (decode_units_ignore (name_bytes_of r)) as [parts ->].
  simpl. by eexists.
Qed.

(** So the inspector's [except] branch is never taken on a row: the name
    it appends is the decoded one. *)
Lemma decode_name_or_placeholder_decoded i r :
  decode_name ignore r = Ok (decode_name_or_placeholder i r).
Proof.
  unfold decode_name_or_placeholder.
  by destruct (decode_name_ignore r) as [s ->].
Qed.

(** C3: on a name row with a byte that is not utf-8, [read_exodus_file]
    raises UnicodeDecodeError: no name is substituted, the remaining rows
    are not decoded, and the call ends with the handle still open.  The
    inspector, on the same file, returns a name for every row. *)
Theorem C3_strict_decode_raises :
  read_exodus_file "fr.e" (world_of "fr.e" latin1_file)
  = (Raise (UnicodeDecodeError (ascii_of_nat 233)), opened (world_of "fr.e" latin1_file))
  ∧ (inspect_exodus_file "fr.e" (world_of "fr.e" latin1_file)).1
    = Ok (describe <$> variables latin1_file,
          [("Nodal Variables", ["Temprature"; "Pressure"])]).
Proof.
  rewrite read_exodus_file_run, inspect_exodus_file_run.
  split; vm_compute; reflexivity.
Qed.

Lemma compressed_fully_masked r : fully_masked r → compressed r = [].
Proof.
  unfold fully_masked, compressed.
  induction r as [|c r IH]; intros H; [done|].
  rewrite filter_cons_False.
  - apply IH. intros c' Hc'. apply H. by right.
  - rewrite (H c) by left. done.
Qed.

Lemma name_bytes_fully_masked r : fully_masked r → name_bytes_of r = [].
Proof.
  intros H. unfold name_bytes_of.
  destruct (is_masked r) eqn:E; [by apply compressed_fully_masked|].
  destruct r as [|c r]; [done|].
  unfold is_masked in E. simpl in E.
  rewrite (H c) in E by left. discriminate.
Qed.

(** C4, as stated, fails: a fully masked row decodes to the empty string,
    which is not the placeholder of its position, in the inspector and in
    [read_exodus_file] alike. *)
Lemma C4_masked_row_is_not_placeholder :
  fully_masked [(np_bytes_ zero, true); (np_bytes_ zero, true)]
  ∧ decode_name_or_placeholder 0 [(np_bytes_ zero, true); (np_bytes_ zero, true)]
    ≠ placeholder 0
  ∧ decode_name strict [(np_bytes_ zero, true); (np_bytes_ zero, true)]
    ≠ Ok (placeholder 0).
Proof.
  split; [|split; vm_compute; discriminate].
  intros c Hc. repeat (apply elem_of_cons in Hc as [->|Hc]; [done|]).
  by apply elem_of_nil in Hc.
Qed.

(** C4 (amended): a fully masked row decodes to the empty name and never
    raises, at every position, in both readers. *)
Theorem C4_masked_row_decodes_to_empty (i : nat) (r : row) :
  fully_masked r →
  decode_name strict r = Ok "" ∧ decode_name_or_placeholder i r = "".
Proof.
  intros H. unfold decode_name_or_placeholder, decode_name.
  rewrite (name_bytes_fully_masked r H). done.
Qed.

Lemma C4_masked_row_decodes_to_empty_witness :
  decode_name strict [(np_bytes_ zero, true); (np_bytes_ zero, true)] = Ok ""
  ∧ decode_name_or_placeholder 2 [(np_bytes_ zero, true); (np_bytes_ zero, true)] = "".
Proof.
  apply (C4_masked_row_decodes_to_empty 2).
  intros c Hc. repeat (apply elem_of_cons in Hc as [->|Hc]; [reflexivity|]).
  by apply elem_of_nil in Hc.
Defined.

(** ** C5: names and value arrays are matched by position *)

Lemma node_data_from_other f name names : ∀ i node_data,
  name ∉ names → node_data_from f i names node_data !! name = node_data !! name.
Proof.
  induction names as [|n rest IH]; intros i node_data Hnot; simpl; [done|].
  apply not_elem_of_cons in Hnot as [Hne Hrest].
  rewrite IH by done. unfold bind_value.
  destruct (variables f !! vals_nod_var i); [|done].
  by rewrite lookup_insert_ne.
Qed.

Lemma names_split (names : list string) i name :
  names !! i = Some name →
  names = (take i names ++ name :: drop (S i) names)%list ∧ length (take i names) = i.
Proof.
  intros H. split.
  - by rewrite <- (take_drop_middle names i name H) at 1.
  - apply length_take_le. apply lookup_lt_Some in H. lia.
Qed.

(** C5: for every file and every position [i] of the name list, the
    value loop looks up vals_nod_var<i+1>.  If the field is present the
    pass binds the name at position [i] to that array; if it is absent the
    pass prints the warning and leaves the mapping as it was; the loop
    never raises.  For a name that stands at no other position, the final
    mapping holds that array under the name, or no entry when the field is
    absent.  The file with num_nod_var = 2, names Temp and Pressure and
    only vals_nod_var1 reads to the mapping with Temp alone, with one
    warning and no exception. *)
Theorem C5_positional_binding (f : NcFile) (names : list string) (i : nat)
    (name : string) (w : World) :
  names !! i = Some name →
  vals_nod_var i = "vals_nod_var" +:+ pretty (i + 1)%nat
  ∧ (∃ node_data w_i final w_end,
      read_node_data f 0 (take i names) ∅ w = (Ok node_data, w_i)
      ∧ read_node_data f 0 (take (S i) names) ∅ w
        = match variables f !! vals_nod_var i with
          | Some a => (Ok (<[name := a]> node_data), w_i)
          | None => (Ok node_data, printed w_i [warning (vals_nod_var i)])
          end
      ∧ read_node_data f 0 names ∅ w = (Ok final, w_end)
      ∧ ((∀ j, j ≠ i → names !! j ≠ Some name) →
         final !! name = variables f !! vals_nod_var i))
  ∧ read_exodus_file "a.e" (world_of "a.e" temp_pressure_file)
    = (Ok (mkExtractedData
             array_of_zero
             (reals [0; 1; 2]%Z, reals [0; 0; 1]%Z, reals [0; 0; 0]%Z)
             {[ "Temp" := real_table [[10; 11; 12]; [20; 21; 22]]%Z ]}
             ["Temp"; "Pressure"]
             (3, None)),
       mkWorld {[ "a.e" := temp_pressure_file ]} ∅ 1
               ["Warning: Variable 'vals_nod_var2' not found in dataset."]).
Proof.
  intros H. split; [done|]. split.
  - destruct (names_split names i name H) as [Hsplit Hlen].
    eexists _, _, _, _. split; [apply read_node_data_run|].
    split; [|split; [apply read_node_data_run|]].
    + rewrite (take_S_r names i name H), read_node_data_run.
      rewrite node_data_from_app, warnings_from_app, Hlen. simpl.
      unfold bind_value, warn_value.
      destruct (variables f !! vals_nod_var i).
      * by rewrite app_nil_r.
      * by rewrite printed_app.
    + intros Huniq.
      assert (Hbefore : name ∉ take i names).
      { intros [j Hj]%list_elem_of_lookup.
        apply (Huniq j).
        - apply lookup_lt_Some in Hj. rewrite Hlen in Hj. lia.
        - rewrite lookup_take_Some in Hj. by destruct Hj. }
      assert (Hafter : name ∉ drop (S i) names).
      { intros [j Hj]%list_elem_of_lookup.
        rewrite lookup_drop in Hj. apply (Huniq (S i + j)); [lia|done]. }
      rewrite Hsplit at 1.
      rewrite node_data_from_app, Hlen. simpl.
      rewrite node_data_from_other by done.
      unfold bind_value. destruct (variables f !! vals_nod_var i).
      * by rewrite lookup_insert_eq.
      * by rewrite node_data_from_other, lookup_empty.
  - rewrite read_exodus_file_run. vm_compute. reflexivity.
Qed.

Lemma C5_positional_binding_witness :
  ∃ node_data w_i final w_end,
    read_node_data temp_pressure_file 0 (take 1 ["Temp"; "Pressure"]) ∅
                   (world_of "a.e" temp_pressure_file) = (Ok node_data, w_i)
    ∧ read_node_data temp_pressure_file 0 (take 2 ["Temp"; "Pressure"]) ∅
                     (world_of "a.e" temp_pressure_file)
      = match variables temp_pressure_file !! vals_nod_var 1 with
        | Some a => (Ok (<[ "Pressure" := a ]> node_data), w_i)
        | None => (Ok node_data, printed w_i [warning (vals_nod_var 1)])
        end
    ∧ read_node_data temp_pressure_file 0 ["Temp"; "Pressure"] ∅
                     (world_of "a.e" temp_pressure_file) = (Ok final, w_end)
    ∧ ((∀ j, j ≠ 1 → ["Temp"; "Pressure"] !! j ≠ Some "Pressure") →
       final !! "Pressure" = variables temp_pressure_file !! vals_nod_var 1).
Proof.
  refine (proj1 (proj2 (C5_positional_binding temp_pressure_file
            ["Temp"; "Pressure"] 1 "Pressure" (world_of "a.e" temp_pressure_file) _))).
  reflexivity.
Defined.

(** ** C6: how many names, how many entries *)

Lemma rmap_length {A B} (g : A → result B) xs : ∀ ys,
  rmap g xs = Ok ys → length ys = length xs.
Proof.
  induction xs as [|x xs IH]; simpl; intros ys H.
  - by injection H as <-.
  - destruct (g x) as [y|]; simpl in H; [|done].
    destruct (rmap g xs) as [ys'|]; simpl in H; [|done].
    injection H as <-. simpl. f_equal. by apply IH.
Qed.

Lemma rmap_Ok {A B} (g : A → result B) xs :
  (∀ x, x ∈ xs → ∃ y, g x = Ok y) → ∃ ys, rmap g xs = Ok ys.
Proof.
  induction xs as [|x xs IH]; simpl; intros H; [by eexists|].
  destruct (H x) as [y ->]; [left|]. simpl.
  destruct IH as [ys ->]; [intros x' Hx'; apply H; by right|].
  simpl. by eexists.
Qed.

Lemma rmap_Ok_inv {A B} (g : A → result B) xs ys x :
  rmap g xs = Ok ys → x ∈ xs → ∃ y, g x = Ok y.
Proof.
  revert ys. induction xs as [|x' xs IH]; simpl; intros ys H Hx.
  - by apply elem_of_nil in Hx.
  - destruct (g x') as [y'|] eqn:E; simpl in H; [|done].
    destruct (rmap g xs) as [ys'|]; simpl in H; [|done].
    apply elem_of_cons in Hx as [->|Hx]; [by eexists|]. by eapply IH.
Qed.

Lemma decode_name_strict_Ok r : decodable r ↔ ∃ s, decode_name strict r = Ok s.
Proof.
  unfold decodable, decode_name. split.
  - intros H.
    destruct (rmap_Ok (decode_unit strict) (name_bytes_of r)) as [parts ->];
      [|simpl; by eexists].
    intros [b|n] Hc; simpl; [|by eexists].
    unfold decode_utf8. apply H in Hc.
    apply Nat.ltb_lt in Hc. rewrite Hc. by eexists.
  - intros [s Hs] b Hb.
    destruct (rmap (decode_unit strict) (name_bytes_of r)) as [parts|] eqn:E;
      simpl in Hs; [|done].
    destruct (rmap_Ok_inv _ _ _ _ E Hb) as [y Hy].
    simpl in Hy. unfold decode_utf8 in Hy.
    destruct (nat_of_ascii b <? 128)%nat eqn:Eb; [|done].
    by apply Nat.ltb_lt.
Qed.

Lemma valid_file_extract f N :
  valid_file f N ↔
  dimensions f !! "num_nod_var" = Some N ∧ ∃ data, extract f = Ok data.
Proof.
  unfold valid_file, extract, read_coordinates, getitem, read_nod_var_names.
  split.
  - intros (Hdim & (x & n & Hx & Hlen) & [y Hy] & Hrows).
    split; [done|]. rewrite Hx, Hy, Hdim. simpl.
    destruct (rmap_Ok (λ i, try! r <- name_nod_var_row f i; decode_name strict r)
                (seq 0 N)) as [names ->].
    { intros i Hi. apply elem_of_seq in Hi.
      destruct (Hrows i) as (r & -> & Hr); [lia|]. simpl.
      by apply decode_name_strict_Ok. }
    simpl. rewrite Hlen. simpl. by eexists.
  - intros (Hdim & data & H). rewrite Hdim in H.
    destruct (variables f !! "coordx") as [x|]; simpl in H; [|done].
    destruct (variables f !! "coordy") as [y|]; simpl in H; [|done].
    destruct (rmap _ (seq 0 N)) as [names|] eqn:E; simpl in H; [|done].
    destruct (len x) as [n|] eqn:El; simpl in H; [|done].
    split; [done|]. split; [by eexists _, _|]. split; [by eexists|].
    intros i Hi.
    destruct (rmap_Ok_inv _ _ _ i E) as [s Hs]; [apply elem_of_seq; lia|].
    simpl in Hs. destruct (name_nod_var_row f i) as [r|]; simpl in Hs; [|done].
    exists r. split; [done|]. apply decode_name_strict_Ok. by eexists.
Qed.

Lemma node_data_from_size f names : ∀ i node_data,
  (size (node_data_from f i names node_data) ≤ size node_data + length names)%nat.
Proof.
  induction names as [|name rest IH]; intros i node_data; simpl; [lia|].
  etrans; [apply IH|]. unfold bind_value.
  destruct (variables f !! vals_nod_var i) as [a|]; [|lia].
  rewrite map_size_insert. destruct (node_data !! name); unfold id; lia.
Qed.

Lemma node_data_from_origin f name a names : ∀ i node_data,
  node_data_from f i names node_data !! name = Some a →
  node_data !! name = Some a
  ∨ ∃ k, names !! k = Some name ∧ variables f !! vals_nod_var (i + k) = Some a.
Proof.
  induction names as [|n rest IH]; intros i node_data H; simpl in H; [by left|].
  apply IH in H as [H|(k & Hk & Hv)].
  - unfold bind_value in H.
    destruct (variables f !! vals_nod_var i) as [a'|] eqn:E; [|by left].
    destruct (decide (n = name)) as [->|Hne].
    + rewrite lookup_insert_eq in H. injection H as ->.
      right. exists 0. by rewrite Nat.add_0_r.
    + rewrite lookup_insert_ne in H by done. by left.
  - right. exists (S k). split; [done|]. by replace (i + S k) with (S i + k) by lia.
Qed.

(** C6: for every valid file that declares [N] nodal variables, the read
    returns; the name list of the result has length exactly [N]; the value
    mapping has at most [N] entries, and every entry stands under the name
    of a position whose value array is present in the file. *)
Theorem C6_names_and_entries (path : string) (w : World) (f : NcFile) (N : nat) :
  fs w !! path = Some f →
  valid_file f N →
  ∃ data w',
    read_exodus_file path w = (Ok data, w')
    ∧ length (nodal_vars data) = N
    ∧ (size (nodal_data data) ≤ N)%nat
    ∧ ∀ name a, nodal_data data !! name = Some a →
        ∃ i, nodal_vars data !! i = Some name
             ∧ variables f !! vals_nod_var i = Some a.
Proof.
  intros Hf (Hdim & data & Hdata)%valid_file_extract.
  rewrite read_exodus_file_run, Hf, Hdata.
  eexists _, _. split; [reflexivity|].
  unfold extract, getitem in Hdata. rewrite Hdim in Hdata.
  destruct (read_coordinates f) as [xyz|]; simpl in Hdata; [|done].
  destruct (read_nod_var_names f N) as [names|] eqn:E; simpl in Hdata; [|done].
  destruct (len xyz.1.1) as [n|]; simpl in Hdata; [|done].
  injection Hdata as <-. simpl.
  apply rmap_length in E. rewrite length_seq in E.
  split; [done|]. split.
  - pose proof (node_data_from_size f names 0 ∅) as Hs.
    rewrite map_size_empty in Hs. lia.
  - intros name a H. apply node_data_from_origin in H as [H|H]; [|done].
    by rewrite lookup_empty in H.
Qed.

Lemma C6_names_and_entries_witness :
  ∃ data w',
    read_exodus_file "a.e" (world_of "a.e" temp_pressure_file) = (Ok data, w')
    ∧ length (nodal_vars data) = 2
    ∧ (size (nodal_data data) ≤ 2)%nat
    ∧ ∀ name a, nodal_data data !! name = Some a →
        ∃ i, nodal_vars data !! i = Some name
             ∧ variables temp_pressure_file !! vals_nod_var i = Some a.
Proof.
  apply (C6_names_and_entries "a.e" (world_of "a.e" temp_pressure_file)
           temp_pressure_file 2).
  - vm_compute. reflexivity.
  - apply valid_file_extract. split; [vm_compute; reflexivity|].
    eexists. vm_compute. reflexivity.
Defined.

(** ** C7: reading the same file twice *)

Lemma read_exodus_file_result path w :
  (read_exodus_file path w).1
  = match fs w !! path with
    | None => Raise (OSError path)
    | Some f => extract f
    end.
Proof.
  rewrite read_exodus_file_run.
  destruct (fs w !! path) as [f|]; [|done]. by destruct (extract f).
Qed.

Lemma read_exodus_file_fs path w : fs (read_exodus_file path w).2 = fs w.
Proof.
  rewrite read_exodus_file_run.
  destruct (fs w !! path) as [f|]; [|done]. by destruct (extract f).
Qed.

(** C7: two successive calls of [read_exodus_file] on the same path
    return the same result, and neither changes the file store (the
    second call runs in the world the first one left, with its handles and
    its printed warnings). *)
Theorem C7_read_twice_same_result (path : string) (w : World) :
  (read_exodus_file path (read_exodus_file path w).2).1 = (read_exodus_file path w).1
  ∧ fs (read_exodus_file path w).2 = fs w
  ∧ fs (read_exodus_file path (read_exodus_file path w).2).2 = fs w.
Proof.
  rewrite !read_exodus_file_fs. split; [|done].
  by rewrite !read_exodus_file_result, read_exodus_file_fs.
Qed.

(** ** C8: the time steps *)

(** C8: when time_whole is absent, the time-step array is [np.array([0])]:
    one element, equal to zero, and this is the array every returning read
    of the file carries.  Reading the time steps raises for no file: no
    call of [read_exodus_file] ends in KeyError for time_whole. *)
Theorem C8_time_steps_default (f : NcFile) :
  variables f !! "time_whole" = None →
  read_time_steps f = array_of_zero
  ∧ len (read_time_steps f) = Ok 1
  ∧ values (read_time_steps f) = [np_number 0]
  ∧ (∀ path w data,
       fs w !! path = Some f → (read_exodus_file path w).1 = Ok data →
       time_steps data = array_of_zero)
  ∧ (∀ path w e,
       (read_exodus_file path w).1 = Raise e → e ≠ KeyError "time_whole").
Proof.
  intros H.
  assert (Ht : read_time_steps f = array_of_zero) by (unfold read_time_steps; by rewrite H).
  rewrite Ht. split; [done|]. split; [done|]. split; [done|]. split.
  - intros path w data Hf Hdata.
    rewrite read_exodus_file_result, Hf in Hdata. unfold extract in Hdata.
    destruct (read_coordinates f); simpl in Hdata; [|done].
    destruct (getitem (dimensions f) "num_nod_var") as [n|]; simpl in Hdata; [|done].
    destruct (read_nod_var_names f n); simpl in Hdata; [|done].
    destruct (len _); simpl in Hdata; [|done].
    injection Hdata as <-. done.
  - intros path w e He ->.
    rewrite read_exodus_file_result in He.
    destruct (fs w !! path) as [f'|]; [|done].
    apply extract_Raise in He. simpl in He.
    destruct He as [He|[He|He]]; discriminate.
Qed.

Lemma C8_time_steps_default_witness :
  read_time_steps temp_pressure_file = array_of_zero
  ∧ len (read_time_steps temp_pressure_file) = Ok 1
  ∧ values (read_time_steps temp_pressure_file) = [np_number 0]
  ∧ (∀ path w data,
       fs w !! path = Some temp_pressure_file →
       (read_exodus_file path w).1 = Ok data →
       time_steps data = array_of_zero)
  ∧ (∀ path w e,
       (read_exodus_file path w).1 = Raise e → e ≠ KeyError "time_whole").
Proof.
  apply (C8_time_steps_default temp_pressure_file).
  vm_compute. reflexivity.
Defined.

(** ** C9: the z coordinates *)

Lemma zeros_like_len x : len (zeros_like x) = len x.
Proof.
  destruct x as [[c|cs|rows]|[c|cs|rows]]; unfold len; simpl;
    by rewrite ?length_map.
Qed.

Lemma zeros_like_shape x : shape (zeros_like x) = shape x.
Proof.
  destruct x as [[c|cs|rows]|[c|cs|rows]]; simpl; rewrite ?length_map; try done;
    destruct rows; simpl; by rewrite ?length_map.
Qed.

Lemma svalues_smap_const {A} (k : A) (s : shaped A) z :
  In z (svalues (smap (λ c, (k, c.2)) s)) → z = k.
Proof.
  destruct s as [c|cs|rows]; simpl.
  - by intros [<-|[]].
  - rewrite map_map. simpl. by intros (c & <- & _)%in_map_iff.
  - intros (c & <- & Hc)%in_map_iff.
    apply in_concat in Hc as (r & Hr & Hc).
    apply in_map_iff in Hr as (r' & <- & _).
    by apply in_map_iff in Hc as (c' & <- & _).
Qed.

Lemma zeros_like_values x v : v ∈ values (zeros_like x) → is_zero v = true.
Proof.
  rewrite list_elem_of_In.
  destruct x as [s|s]; simpl; intros (z & <- & Hz)%in_map_iff;
    apply bool_decide_eq_true; by apply svalues_smap_const in Hz.
Qed.

Lemma zeros_like_count x : length (values (zeros_like x)) = length (values x).
Proof.
  destruct x as [[c|cs|rows]|[c|cs|rows]]; simpl; rewrite ?length_map; try done;
    induction rows as [|r rows IH]; simpl; try done;
    rewrite !length_app, ?length_map; by rewrite IH.
Qed.

(** C9: when coordz is absent and coordx, coordy are present, the z array
    is [np.zeros_like(x)]: it has the length (and shape, and number of
    entries) of x and every value in it is zero, and this is the z array
    every returning read of the file carries. *)
Theorem C9_z_defaults_to_zeros (f : NcFile) (x y : ndarray) :
  variables f !! "coordx" = Some x →
  variables f !! "coordy" = Some y →
  variables f !! "coordz" = None →
  read_coordinates f = Ok (x, y, zeros_like x)
  ∧ len (zeros_like x) = len x
  ∧ shape (zeros_like x) = shape x
  ∧ length (values (zeros_like x)) = length (values x)
  ∧ (∀ v, v ∈ values (zeros_like x) → is_zero v = true)
  ∧ (∀ path w data,
       fs w !! path = Some f → (read_exodus_file path w).1 = Ok data →
       coordinates data = (x, y, zeros_like x)).
Proof.
  intros Hx Hy Hz.
  assert (Hc : read_coordinates f = Ok (x, y, zeros_like x)).
  { unfold read_coordinates, getitem. by rewrite Hx, Hy, Hz. }
  split; [done|]. split; [apply zeros_like_len|]. split; [apply zeros_like_shape|].
  split; [apply zeros_like_count|]. split; [apply zeros_like_values|].
  intros path w data Hf Hdata.
  rewrite read_exodus_file_result, Hf in Hdata. unfold extract in Hdata.
  rewrite Hc in Hdata. simpl in Hdata.
  destruct (getitem (dimensions f) "num_nod_var") as [n|]; simpl in Hdata; [|done].
  destruct (read_nod_var_names f n); simpl in Hdata; [|done].
  destruct (len x); simpl in Hdata; [|done].
  injection Hdata as <-. done.
Qed.

Lemma C9_z_defaults_to_zeros_witness :
  read_coordinates temp_pressure_file
  = Ok (reals [0; 1; 2]%Z, reals [0; 0; 1]%Z, zeros_like (reals [0; 1; 2]%Z))
  ∧ len (zeros_like (reals [0; 1; 2]%Z)) = len (reals [0; 1; 2]%Z)
  ∧ shape (zeros_like (reals [0; 1; 2]%Z)) = shape (reals [0; 1; 2]%Z)
  ∧ length (values (zeros_like (reals [0; 1; 2]%Z))) = length (values (reals [0; 1; 2]%Z))
  ∧ (∀ v, v ∈ values (zeros_like (reals [0; 1; 2]%Z)) → is_zero v = true)
  ∧ (∀ path w data,
       fs w !! path = Some temp_pressure_file →
       (read_exodus_file path w).1 = Ok data →
       coordinates data
       = (reals [0; 1; 2]%Z, reals [0; 0; 1]%Z, zeros_like (reals [0; 1; 2]%Z))).
Proof.
  apply (C9_z_defaults_to_zeros temp_pressure_file
           (reals [0; 1; 2]%Z) (reals [0; 0; 1]%Z));
    vm_compute; reflexivity.
Defined.

(** ** C10: two positions with the same name *)

Lemma node_data_from_dom f names : ∀ i node_data,
  dom (node_data_from f i names node_data) ⊆ dom node_data ∪ list_to_set names.
Proof.
  induction names as [|name rest IH]; intros i node_data; simpl.
  - apply union_subseteq_l.
  - etrans; [apply IH|]. unfold bind_value.
    destruct (variables f !! vals_nod_var i) as [a|].
    + rewrite dom_insert_L.
      intros x [Hx|Hx]%elem_of_union; [|apply elem_of_union_r; by apply elem_of_union_r].
      apply elem_of_union in Hx as [Hx|Hx].
      * apply elem_of_union_r. by apply elem_of_union_l.
      * by apply elem_of_union_l.
    + intros x [Hx|Hx]%elem_of_union; [by apply elem_of_union_l|].
      apply elem_of_union_r. by apply elem_of_union_r.
Qed.

Lemma remove_dups_length (l : list string) :
  NoDup l ∨ length (remove_dups l) < length l.
Proof.
  induction l as [|x l IH]; [left; constructor|]. simpl.
  assert (Hle : (length (remove_dups l) ≤ length l)%nat).
  { destruct IH as [H|H]; [|lia].
    clear -l. induction l as [|y l IHl]; simpl; [done|].
    destruct (decide_rel elem_of y l); simpl; lia. }
  destruct (decide_rel elem_of x l) as [Hx|Hx].
  - right. lia.
  - destruct IH as [H|H]; [left; by constructor|right; simpl; lia].
Qed.

Lemma size_names_with_repeat (names : list string) i j name :
  i < j → names !! i = Some name → names !! j = Some name →
  size (list_to_set names : gset string) < length names.
Proof.
  intros Hij Hi Hj.
  assert (Hset : (list_to_set names : gset string) = list_to_set (remove_dups names)).
  { apply set_eq. intros x. by rewrite !elem_of_list_to_set, elem_of_remove_dups. }
  rewrite Hset, size_list_to_set by apply NoDup_remove_dups.
  destruct (remove_dups_length names) as [H|H]; [|done].
  rewrite NoDup_alt in H. specialize (H i j name Hi Hj). lia.
Qed.

Lemma node_data_from_last f names j name a :
  names !! j = Some name →
  (∀ k, j < k → names !! k ≠ Some name) →
  variables f !! vals_nod_var j = Some a →
  node_data_from f 0 names ∅ !! name = Some a.
Proof.
  intros Hj Hlast Ha.
  destruct (names_split names j name Hj) as [Hsplit Hlen].
  rewrite Hsplit, node_data_from_app, Hlen. simpl.
  rewrite node_data_from_other.
  - unfold bind_value. rewrite Ha. apply lookup_insert_eq.
  - intros [k Hk]%list_elem_of_lookup. rewrite lookup_drop in Hk.
    apply (Hlast (S j + k)); [lia|done].
Qed.

Lemma read_Ok_inv path w f data :
  fs w !! path = Some f → (read_exodus_file path w).1 = Ok data →
  nodal_data data = node_data_from f 0 (nodal_vars data) ∅.
Proof.
  intros Hf Hdata. rewrite read_exodus_file_result, Hf in Hdata.
  unfold extract in Hdata.
  destruct (read_coordinates f); simpl in Hdata; [|done].
  destruct (getitem (dimensions f) "num_nod_var") as [n|]; simpl in Hdata; [|done].
  destruct (read_nod_var_names f n); simpl in Hdata; [|done].
  destruct (len _); simpl in Hdata; [|done].
  by injection Hdata as <-.
Qed.

(** C10: when the names at positions [i < j] of the returned name list
    are the same string, [j] is the last position with that string and
    vals_nod_var<j+1> is present, the value mapping holds under that
    string the array of position [j], whatever array position [i] has; and
    the mapping has strictly fewer entries than there are names. *)
Theorem C10_last_write_wins (path : string) (w : World) (f : NcFile)
    (data : ExtractedData) (i j : nat) (name : string) (a : ndarray) :
  fs w !! path = Some f →
  (read_exodus_file path w).1 = Ok data →
  i < j →
  nodal_vars data !! i = Some name →
  nodal_vars data !! j = Some name →
  (∀ k, j < k → nodal_vars data !! k ≠ Some name) →
  variables f !! vals_nod_var j = Some a →
  nodal_data data !! name = Some a
  ∧ size (nodal_data data) < length (nodal_vars data).
Proof.
  intros Hf Hdata Hij Hi Hj Hlast Ha.
  rewrite (read_Ok_inv path w f data Hf Hdata). split.
  - by apply (node_data_from_last f _ j).
  - rewrite <- size_dom.
    eapply Nat.le_lt_trans; [|by apply (size_names_with_repeat _ i j name)].
    apply subseteq_size. etrans; [apply node_data_from_dom|].
    rewrite dom_empty_L. apply union_least; [apply empty_subseteq|done].
Qed.

Lemma C10_last_write_wins_witness :
  (read_exodus_file "t.e" (world_of "t.e" twice_T_file)).1
  = Ok (mkExtractedData
          array_of_zero
          (reals [0; 1; 2]%Z, reals [0; 0; 1]%Z, reals [0; 0; 0]%Z)
          {[ "T" := real_table [[20; 21; 22]]%Z ]}
          ["T"; "T"] (3, None))
  ∧ ({[ "T" := real_table [[20; 21; 22]]%Z ]} : gmap string ndarray) !! "T"
    = Some (real_table [[20; 21; 22]]%Z)
  ∧ size ({[ "T" := real_table [[20; 21; 22]]%Z ]} : gmap string ndarray)
    < length ["T"; "T"].
Proof.
  assert (H : (read_exodus_file "t.e" (world_of "t.e" twice_T_file)).1
              = Ok (mkExtractedData
                      array_of_zero
                      (reals [0; 1; 2]%Z, reals [0; 0; 1]%Z, reals [0; 0; 0]%Z)
                      {[ "T" := real_table [[20; 21; 22]]%Z ]}
                      ["T"; "T"] (3, None))).
  { rewrite read_exodus_file_result. vm_compute. reflexivity. }
  split; [exact H|].
  apply (C10_last_write_wins "t.e" (world_of "t.e" twice_T_file) twice_T_file
           _ 0 1 "T" (real_table [[20; 21; 22]]%Z)
           ltac:(vm_compute; reflexivity) H).
  - lia.
  - reflexivity.
  - reflexivity.
  - intros [|[|[|k]]] Hk; try lia; simpl; discriminate.
  - vm_compute. reflexivity.
Defined.

(** * Further properties of the readers *)

(** ** Decoding a name row *)

Lemma name_bytes_of_compressed r : name_bytes_of r = compressed r.
Proof.
  unfold name_bytes_of, compressed, is_masked.
  destruct (existsb snd r) eqn:E; [done|].
  induction r as [|c r IH]; [done|].
  simpl in E. apply orb_false_elim in E as [Hc Hr].
  rewrite filter_cons_True by done. simpl. f_equal. by apply IH.
Qed.

Lemma compressed_app r1 r2 : compressed (r1 ++ r2) = (compressed r1 ++ compressed r2)%list.
Proof. unfold compressed. by rewrite filter_app, map_app. Qed.

(** X1: the decoders see only the unmasked entries of a row: two rows
    with the same unmasked entries, in the same order, decode alike in
    [read_exodus_file] and in [inspect_exodus_file], whatever the masked
    positions hold and wherever they stand. *)
Theorem X1_decode_sees_unmasked_only (errors : decode_errors) (i : nat) (r r' : row) :
  compressed r = compressed r' →
  decode_name errors r = decode_name errors r'
  ∧ decode_name_or_placeholder i r = decode_name_or_placeholder i r'.
Proof.
  intros H. unfold decode_name_or_placeholder, decode_name.
  by rewrite !name_bytes_of_compressed, H.
Qed.

Lemma X1_decode_sees_unmasked_only_witness :
  decode_name strict [(np_bytes_ "T"%char, false); (np_bytes_ "x"%char, true)]
  = decode_name strict [(np_number 7, true); (np_bytes_ "T"%char, false)]
  ∧ decode_name_or_placeholder 0 [(np_bytes_ "T"%char, false); (np_bytes_ "x"%char, true)]
    = decode_name_or_placeholder 0 [(np_number 7, true); (np_bytes_ "T"%char, false)].
Proof.
  apply (X1_decode_sees_unmasked_only strict 0). reflexivity.
Defined.

Lemma compressed_bytes_row s :
  compressed (bytes_row s) = map np_bytes_ (list_ascii_of_string s).
Proof.
  unfold compressed, bytes_row.
  induction (list_ascii_of_string s) as [|c cs IH]; [done|].
  cbn [map]. rewrite filter_cons_True by done. cbn [map fst]. by rewrite IH.
Qed.

Lemma decode_units_ascii errors cs :
  (∀ c, c ∈ cs → (nat_of_ascii c < 128)%nat) →
  rmap (decode_unit errors) (map np_bytes_ cs) = Ok (map (λ c, String c "") cs).
Proof.
  induction cs as [|c cs IH]; intros H; [done|]. simpl.
  unfold decode_utf8.
  assert (Hc : (nat_of_ascii c <? 128)%nat = true)
    by (apply Nat.ltb_lt, H; left).
  rewrite Hc. simpl. rewrite IH by (intros c' Hc'; apply H; by right). done.
Qed.

Lemma join_characters cs : join (map (λ c, String c "") cs) = string_of_list_ascii cs.
Proof. induction cs as [|c cs IH]; [done|]. simpl. by rewrite IH. Qed.

(** X2: storing and decoding a name.  A name of characters below 0x80,
    written one byte per character and followed by any masked padding,
    decodes to the name with the white space at its two ends removed, in
    both readers. *)
Theorem X2_name_round_trip (s : string) (pad : row) (i : nat) :
  (∀ c, c ∈ list_ascii_of_string s → (nat_of_ascii c < 128)%nat) →
  fully_masked pad →
  decode_name strict (bytes_row s ++ pad) = Ok (strip s)
  ∧ decode_name_or_placeholder i (bytes_row s ++ pad) = strip s.
Proof.
  intros Hs Hpad.
  assert (H : ∀ errors, decode_name errors (bytes_row s ++ pad) = Ok (strip s)).
  { intros errors. unfold decode_name.
    rewrite name_bytes_of_compressed, compressed_app, compressed_bytes_row.
    rewrite (compressed_fully_masked pad Hpad), app_nil_r.
    rewrite decode_units_ascii by done. simpl.
    by rewrite join_characters, string_of_list_ascii_of_string. }
  split; [apply H|]. unfold decode_name_or_placeholder. by rewrite H.
Qed.

Lemma X2_name_round_trip_witness :
  decode_name strict (bytes_row " Temp " ++ [(np_bytes_ zero, true); (np_bytes_ zero, true)])
  = Ok (strip " Temp ")
  ∧ decode_name_or_placeholder 3
      (bytes_row " Temp " ++ [(np_bytes_ zero, true); (np_bytes_ zero, true)])
    = strip " Temp ".
Proof.
  apply (X2_name_round_trip " Temp " [(np_bytes_ zero, true); (np_bytes_ zero, true)] 3).
  - intros c Hc. repeat (apply elem_of_cons in Hc as [->|Hc]; [vm_compute; lia|]).
    by apply elem_of_nil in Hc.
  - intros c Hc. repeat (apply elem_of_cons in Hc as [->|Hc]; [reflexivity|]).
    by apply elem_of_nil in Hc.
Defined.

Lemma append_cons c a b : String c a +:+ b = String c (a +:+ b).
Proof. reflexivity. Qed.

Lemma append_nil_r s : s +:+ "" = s.
Proof. induction s as [|c s IH]; [done|]. by rewrite append_cons, IH. Qed.

Lemma append_assoc' a b c : (a +:+ b) +:+ c = a +:+ (b +:+ c).
Proof. induction a as [|x a IH]; [done|]. by rewrite !append_cons, IH. Qed.

Lemma rev_app_append s t : String.rev_app s t = String.rev s +:+ t.
Proof.
  unfold String.rev. revert t.
  induction s as [|c s IH]; intros t; [done|]. cbn [String.rev_app].
  rewrite (IH (String c t)), (IH (String c "")), append_assoc'. done.
Qed.

Lemma rev_cons c s : String.rev (String c s) = String.rev s +:+ String c "".
Proof. unfold String.rev at 1. cbn [String.rev_app]. apply rev_app_append. Qed.

Lemma rev_append a b : String.rev (a +:+ b) = String.rev b +:+ String.rev a.
Proof.
  induction a as [|c a IH].
  - change (String.rev b = String.rev b +:+ ""). by rewrite append_nil_r.
  - by rewrite append_cons, !rev_cons, IH, append_assoc'.
Qed.

Lemma rev_involutive s : String.rev (String.rev s) = s.
Proof.
  induction s as [|c s IH]; [done|].
  by rewrite rev_cons, rev_append, IH.
Qed.

Lemma lstrip_starts_clean s : starts_clean (lstrip s).
Proof.
  induction s as [|c s IH]; [done|]. simpl.
  destruct (py_isspace c) eqn:E; [done|]. simpl. done.
Qed.

Lemma starts_clean_lstrip s : starts_clean s → lstrip s = s.
Proof. destruct s as [|c s]; [done|]. simpl. by intros ->. Qed.

Lemma lstrip_suffix s : ∃ blanks, s = blanks +:+ lstrip s.
Proof.
  induction s as [|c s [blanks IH]]; [by exists ""|]. simpl.
  destruct (py_isspace c).
  - exists (String c blanks). rewrite append_cons. by f_equal.
  - by exists "".
Qed.

Lemma starts_clean_prefix a b : starts_clean (a +:+ b) → starts_clean a.
Proof. by destruct a. Qed.

Lemma strip_ends_clean s :
  starts_clean (strip s) ∧ starts_clean (String.rev (strip s)).
Proof.
  unfold strip. rewrite rev_involutive. split; [|apply lstrip_starts_clean].
  destruct (lstrip_suffix (String.rev (lstrip s))) as [blanks H].
  apply (f_equal String.rev) in H. rewrite rev_involutive, rev_append in H.
  apply (starts_clean_prefix _ (String.rev blanks)). rewrite <- H.
  apply lstrip_starts_clean.
Qed.

Lemma strip_clean s :
  starts_clean s → starts_clean (String.rev s) → strip s = s.
Proof.
  intros H1 H2. unfold strip.
  by rewrite (starts_clean_lstrip s H1), (starts_clean_lstrip _ H2), rev_involutive.
Qed.

Lemma strip_idempotent s : strip (strip s) = strip s.
Proof. apply strip_clean; apply strip_ends_clean. Qed.

Lemma rmap_Ok_elem {A B} (g : A → result B) xs ys y :
  rmap g xs = Ok ys → y ∈ ys → ∃ x, x ∈ xs ∧ g x = Ok y.
Proof.
  revert ys. induction xs as [|x xs IH]; simpl; intros ys H Hy.
  - injection H as <-. by apply elem_of_nil in Hy.
  - destruct (g x) as [y'|] eqn:E; simpl in H; [|done].
    destruct (rmap g xs) as [ys'|]; simpl in H; [|done].
    injection H as <-. apply elem_of_cons in Hy as [->|Hy].
    + exists x. split; [left|done].
    + destruct (IH ys' eq_refl Hy) as (x' & Hx' & Hg).
      exists x'. split; [by right|done].
Qed.

Lemma decode_name_trimmed errors r s :
  decode_name errors r = Ok s → strip s = s.
Proof.
  unfold decode_name.
  destruct (rmap (decode_unit errors) (name_bytes_of r)) as [parts|]; simpl; [|done].
  intros [= <-]. apply strip_idempotent.
Qed.

(** X3: decoded names are trimmed.  Every name in the name list of a
    returning read, and every name the inspector gives a row, has no white
    space at its beginning or at its end: stripping it again changes
    nothing. *)
Theorem X3_names_are_trimmed (path : string) (w : World) (data : ExtractedData)
    (name : string) :
  (read_exodus_file path w).1 = Ok data →
  name ∈ nodal_vars data →
  strip name = name
  ∧ starts_clean name ∧ starts_clean (String.rev name)
  ∧ ∀ i r, strip (decode_name_or_placeholder i r) = decode_name_or_placeholder i r.
Proof.
  intros Hdata Hname.
  assert (Hs : strip name = name).
  { rewrite read_exodus_file_result in Hdata.
    destruct (fs w !! path) as [f|]; [|done]. unfold extract in Hdata.
    destruct (read_coordinates f); simpl in Hdata; [|done].
    destruct (getitem (dimensions f) "num_nod_var") as [n|]; simpl in Hdata; [|done].
    destruct (read_nod_var_names f n) as [names|] eqn:E; simpl in Hdata; [|done].
    destruct (len _); simpl in Hdata; [|done].
    injection Hdata as <-. simpl in Hname.
    destruct (rmap_Ok_elem _ _ _ _ E Hname) as (i & _ & Hi). simpl in Hi.
    destruct (name_nod_var_row f i) as [r|]; simpl in Hi; [|done].
    by apply decode_name_trimmed in Hi. }
  split; [done|]. rewrite <- Hs.
  split; [apply strip_ends_clean|]. split; [apply strip_ends_clean|].
  intros i r. apply (decode_name_trimmed ignore r), decode_name_or_placeholder_decoded.
Qed.

Lemma X3_names_are_trimmed_witness :
  strip "Temp" = "Temp"
  ∧ starts_clean "Temp" ∧ starts_clean (String.rev "Temp")
  ∧ ∀ i r, strip (decode_name_or_placeholder i r) = decode_name_or_placeholder i r.
Proof.
  apply (X3_names_are_trimmed "a.e" (world_of "a.e" temp_pressure_file)
           (mkExtractedData
              array_of_zero
              (reals [0; 1; 2]%Z, reals [0; 0; 1]%Z, reals [0; 0; 0]%Z)
              {[ "Temp" := real_table [[10; 11; 12]; [20; 21; 22]]%Z ]}
              ["Temp"; "Pressure"]
              (3, None))).
  - rewrite read_exodus_file_result. vm_compute. reflexivity.
  - left.
Defined.

Lemma decode_units_strict_ignore cs parts :
  rmap (decode_unit strict) cs = Ok parts → rmap (decode_unit ignore) cs = Ok parts.
Proof.
  revert parts. induction cs as [|c cs IH]; intros parts; [done|]. simpl.
  destruct c as [b|n]; simpl.
  - unfold decode_utf8. destruct (nat_of_ascii b <? 128)%nat; simpl; [|done].
    destruct (rmap (decode_unit strict) cs) as [ps|]; simpl; [|done].
    by rewrite (IH ps eq_refl).
  - destruct (rmap (decode_unit strict) cs) as [ps|]; simpl; [|done].
    by rewrite (IH ps eq_refl).
Qed.

Lemma strict_name_is_inspector_name i r name :
  decode_name strict r = Ok name → decode_name_or_placeholder i r = name.
Proof.
  unfold decode_name_or_placeholder, decode_name. intros H.
  destruct (rmap (decode_unit strict) (name_bytes_of r)) as [parts|] eqn:E;
    simpl in H; [|done].
  rewrite (decode_units_strict_ignore _ _ E). simpl. by injection H.
Qed.

(** X4: the two readers agree on every row the strict one accepts: when
    [read_exodus_file] decodes a row to a name, [inspect_exodus_file]
    gives the row that same name, at any position. *)
Theorem X4_inspector_agrees_with_reader (i : nat) (r : row) (name : string) :
  decode_name strict r = Ok name → decode_name_or_placeholder i r = name.
Proof. apply strict_name_is_inspector_name. Qed.

Lemma X4_inspector_agrees_with_reader_witness :
  decode_name_or_placeholder 5 (bytes_row "Pressure") = "Pressure".
Proof.
  apply (X4_inspector_agrees_with_reader 5 (bytes_row "Pressure") "Pressure").
  vm_compute. reflexivity.
Defined.

Lemma compressed_cons_masked v r : compressed ((v, true) :: r) = compressed r.
Proof. unfold compressed. by rewrite filter_cons_False. Qed.

Lemma compressed_cons_unmasked v r : compressed ((v, false) :: r) = v :: compressed r.
Proof. unfold compressed. by rewrite filter_cons_True. Qed.

Lemma decode_without_high_bytes r :
  ∃ parts parts',
    rmap (decode_unit ignore) (compressed r) = Ok parts
    ∧ rmap (decode_unit strict) (compressed (without_high_bytes r)) = Ok parts'
    ∧ join parts = join parts'.
Proof.
  unfold without_high_bytes.
  induction r as [|[v m] r (parts & parts' & Hi & Hs & Hj)]; [by exists [], []|].
  destruct m.
  - rewrite compressed_cons_masked, filter_cons_True;
      [|by destruct v].
    rewrite compressed_cons_masked. by exists parts, parts'.
  - rewrite compressed_cons_unmasked. destruct v as [b|n].
    + destruct (nat_of_ascii b <? 128)%nat eqn:Eb.
      * rewrite filter_cons_True by (unfold survives_ignore; simpl; by rewrite Eb).
        rewrite compressed_cons_unmasked. simpl. unfold decode_utf8.
        rewrite Eb, Hi, Hs. simpl.
        exists (String b "" :: parts), (String b "" :: parts').
        split; [done|]. split; [done|]. simpl. by rewrite Hj.
      * rewrite filter_cons_False
          by (unfold survives_ignore; simpl; rewrite Eb; discriminate).
        simpl. unfold decode_utf8. rewrite Eb, Hi. simpl.
        exists ("" :: parts), parts'. split; [done|]. split; [done|]. exact Hj.
    + rewrite filter_cons_True by done.
      rewrite compressed_cons_unmasked. simpl. rewrite Hi, Hs. simpl.
      exists (pretty n :: parts), (pretty n :: parts').
      split; [done|]. split; [done|]. simpl. by rewrite Hj.
Qed.

(** X5: what [errors="ignore"] amounts to.  For every row and position,
    the name the inspector gives is the name [read_exodus_file] decodes
    from the row once its unmasked bytes of 0x80 and above are deleted;
    so the inspector's decoding never raises and its [except] branch never
    supplies the name. *)
Theorem X5_inspector_drops_high_bytes (i : nat) (r : row) :
  decode_name strict (without_high_bytes r) = Ok (decode_name_or_placeholder i r)
  ∧ decode_name ignore r = Ok (decode_name_or_placeholder i r).
Proof.
  split; [|apply decode_name_or_placeholder_decoded].
  unfold decode_name_or_placeholder, decode_name.
  rewrite !name_bytes_of_compressed.
  destruct (decode_without_high_bytes r) as (parts & parts' & -> & -> & Hj).
  simpl. by rewrite Hj.
Qed.

(** ** When read_exodus_file returns and what it raises *)

(** X6: [read_exodus_file] returns a result exactly for the valid files:
    the path opens, num_nod_var is declared, coordx and coordy are there,
    x has a length, and each of the declared rows of the name table exists
    and holds no unmasked byte of 0x80 or above. *)
Theorem X6_read_returns_iff_valid (path : string) (w : World) :
  (∃ data, (read_exodus_file path w).1 = Ok data)
  ↔ ∃ f N, fs w !! path = Some f ∧ valid_file f N.
Proof.
  rewrite read_exodus_file_result. split.
  - intros [data H]. destruct (fs w !! path) as [f|]; [|done].
    destruct (dimensions f !! "num_nod_var") as [N|] eqn:E.
    + exists f, N. split; [done|]. apply valid_file_extract. split; [done|by eexists].
    + unfold extract, getitem in H. rewrite E in H.
      by destruct (read_coordinates f).
  - intros (f & N & -> & Hv). by apply valid_file_extract in Hv as [_ Hdata].
Qed.

(** X7: the coordinates are looked up first.  Without coordx the read
    raises KeyError for coordx, whatever else the file lacks; with coordx
    and without coordy it raises KeyError for coordy.  In both cases the
    handle is open and nothing was printed. *)
Theorem X7_missing_coordinate_raises_first (path : string) (w : World) (f : NcFile) :
  fs w !! path = Some f →
  (variables f !! "coordx" = None →
     read_exodus_file path w = (Raise (KeyError "coordx"), opened w))
  ∧ (is_Some (variables f !! "coordx") → variables f !! "coordy" = None →
     read_exodus_file path w = (Raise (KeyError "coordy"), opened w)).
Proof.
  intros Hf. rewrite read_exodus_file_run, Hf.
  unfold extract, extract_output, read_coordinates, getitem. split.
  - intros ->. simpl. by rewrite printed_nil.
  - intros [x ->] ->. simpl. by rewrite printed_nil.
Qed.

Lemma X7_missing_coordinate_raises_first_witness :
  read_exodus_file "mesh.e" (world_of "mesh.e" no_coordx_file)
  = (Raise (KeyError "coordx"), opened (world_of "mesh.e" no_coordx_file)).
Proof.
  refine (proj1 (X7_missing_coordinate_raises_first "mesh.e"
                   (world_of "mesh.e" no_coordx_file) no_coordx_file _) _).
  - vm_compute. reflexivity.
  - vm_compute. reflexivity.
Defined.

Lemma rmap_lookup {A B} (g : A → result B) xs ys i y :
  rmap g xs = Ok ys → ys !! i = Some y → ∃ x, xs !! i = Some x ∧ g x = Ok y.
Proof.
  revert ys i. induction xs as [|x xs IH]; simpl; intros ys i H Hy.
  - injection H as <-. done.
  - destruct (g x) as [y'|] eqn:E; simpl in H; [|done].
    destruct (rmap g xs) as [ys'|]; simpl in H; [|done].
    injection H as <-. destruct i as [|i]; simpl in Hy.
    + injection Hy as ->. by exists x.
    + by apply (IH ys' i eq_refl).
Qed.

Lemma extract_Ok_inv f data :
  extract f = Ok data →
  ∃ x y n N,
    variables f !! "coordx" = Some x ∧ variables f !! "coordy" = Some y
    ∧ len x = Ok n ∧ dimensions f !! "num_nod_var" = Some N
    ∧ read_nod_var_names f N = Ok (nodal_vars data)
    ∧ data = mkExtractedData (read_time_steps f)
               (x, y, default (zeros_like x) (variables f !! "coordz"))
               (node_data_from f 0 (nodal_vars data) ∅) (nodal_vars data)
               (n, dimensions f !! "num_elem").
Proof.
  unfold extract, read_coordinates, getitem. intros H.
  destruct (variables f !! "coordx") as [x|]; simpl in H; [|done].
  destruct (variables f !! "coordy") as [y|]; simpl in H; [|done].
  destruct (dimensions f !! "num_nod_var") as [N|]; simpl in H; [|done].
  destruct (read_nod_var_names f N) as [names|] eqn:E; simpl in H; [|done].
  destruct (len x) as [n|] eqn:El; simpl in H; [|done].
  injection H as <-. simpl. exists x, y, n, N.
  repeat (split; [done|]). by destruct (variables f !! "coordz").
Qed.

Lemma read_names_by_row path w f data :
  fs w !! path = Some f →
  (read_exodus_file path w).1 = Ok data →
  ∃ N, dimensions f !! "num_nod_var" = Some N
       ∧ (∀ i, (N ≤ i)%nat → nodal_vars data !! i = None)
       ∧ ∀ i name, nodal_vars data !! i = Some name →
           ∃ r, name_nod_var_row f i = Ok r ∧ decode_name strict r = Ok name.
Proof.
  intros Hf Hdata. rewrite read_exodus_file_result, Hf in Hdata.
  apply extract_Ok_inv in Hdata as (x & y & n & N & _ & _ & _ & HN & Hnames & _).
  exists N. split; [done|]. unfold read_nod_var_names in Hnames.
  pose proof (rmap_length _ _ _ Hnames) as Hlen. rewrite length_seq in Hlen.
  split.
  - intros i Hi. apply lookup_ge_None. lia.
  - intros i name Hi.
    destruct (rmap_lookup _ _ _ _ _ Hnames Hi) as (j & Hj & Hg).
    apply lookup_seq in Hj as [-> _]. simpl in Hg.
    destruct (name_nod_var_row f i) as [r|]; simpl in Hg; [|done].
    by exists r.
Qed.

(** X8: names go by row.  In a returning read the name at position [i]
    of the name list is the strict decoding of row [i] of name_nod_var;
    the list stops at the declared count, so rows of the table beyond it
    are never read. *)
Theorem X8_names_decode_rows (path : string) (w : World) (f : NcFile)
    (data : ExtractedData) :
  fs w !! path = Some f →
  (read_exodus_file path w).1 = Ok data →
  ∃ N, dimensions f !! "num_nod_var" = Some N
       ∧ (∀ i, (N ≤ i)%nat → nodal_vars data !! i = None)
       ∧ ∀ i name, nodal_vars data !! i = Some name →
           ∃ r, name_nod_var_row f i = Ok r ∧ decode_name strict r = Ok name.
Proof. apply read_names_by_row. Qed.

Lemma X8_names_decode_rows_witness :
  ∃ N, dimensions temp_pressure_file !! "num_nod_var" = Some N
       ∧ (∀ i, (N ≤ i)%nat → ["Temp"; "Pressure"] !! i = None)
       ∧ ∀ i name, ["Temp"; "Pressure"] !! i = Some name →
           ∃ r, name_nod_var_row temp_pressure_file i = Ok r
                ∧ decode_name strict r = Ok name.
Proof.
  apply (X8_names_decode_rows "a.e" (world_of "a.e" temp_pressure_file)
           temp_pressure_file
           (mkExtractedData
              array_of_zero
              (reals [0; 1; 2]%Z, reals [0; 0; 1]%Z, reals [0; 0; 0]%Z)
              {[ "Temp" := real_table [[10; 11; 12]; [20; 21; 22]]%Z ]}
              ["Temp"; "Pressure"]
              (3, None))).
  - vm_compute. reflexivity.
  - rewrite read_exodus_file_result. vm_compute. reflexivity.
Defined.

Lemma rmap_first_Raise {A B} (g : A → result B) l1 x l2 e :
  (∀ y, y ∈ l1 → ∃ z, g y = Ok z) → g x = Raise e →
  rmap g (l1 ++ x :: l2) = Raise e.
Proof.
  intros Hl1 Hx. induction l1 as [|y l1 IH]; simpl.
  - by rewrite Hx.
  - destruct (Hl1 y) as [z ->]; [left|]. simpl.
    rewrite IH by (intros y' Hy'; apply Hl1; by right). done.
Qed.

Lemma seq_split k N : k < N → seq 0 N = (seq 0 k ++ k :: seq (S k) (N - S k))%list.
Proof.
  intros H. replace N with (k + S (N - S k)) at 1 by lia.
  by rewrite seq_app.
Qed.

(** The name loop stops at the first position whose row cannot be read
    or decoded, with the exception of that position. *)
Lemma read_first_failing_row path w f N k e :
  fs w !! path = Some f →
  is_Some (variables f !! "coordx") → is_Some (variables f !! "coordy") →
  dimensions f !! "num_nod_var" = Some N →
  k < N →
  (∀ i, i < k → ∃ r, name_nod_var_row f i = Ok r ∧ decodable r) →
  (try! r <- name_nod_var_row f k; decode_name strict r) = Raise e →
  read_exodus_file path w = (Raise e, opened w).
Proof.
  intros Hf [x Hx] [y Hy] HN Hk Hbefore He.
  assert (Hnames : read_nod_var_names f N = Raise e).
  { unfold read_nod_var_names. rewrite (seq_split k N Hk).
    apply rmap_first_Raise; [|done].
    intros i Hi. apply elem_of_seq in Hi.
    destruct (Hbefore i) as (r & -> & Hr); [lia|]. simpl.
    by apply decode_name_strict_Ok. }
  rewrite read_exodus_file_run, Hf.
  unfold extract, extract_output, read_coordinates, getitem.
  rewrite Hx, Hy, HN. simpl. rewrite Hnames. simpl. by rewrite printed_nil.
Qed.

Lemma decode_units_first_bad cs b :
  head (omap (λ c, match c with
                   | np_bytes_ b => if (nat_of_ascii b <? 128)%nat then None else Some b
                   | np_number _ => None
                   end) cs) = Some b →
  rmap (decode_unit strict) cs = Raise (UnicodeDecodeError b).
Proof.
  induction cs as [|c cs IH]; [done|]. simpl.
  destruct c as [b'|n]; simpl.
  - unfold decode_utf8. destruct (nat_of_ascii b' <? 128)%nat; simpl.
    + intros H. by rewrite (IH H).
    + by intros [= ->].
  - intros H. by rewrite (IH H).
Qed.

(** X9: a name that is not utf-8.  When the rows before position [k] of
    the declared names decode and row [k] holds an unmasked byte of 0x80
    or above, [read_exodus_file] raises UnicodeDecodeError for the first
    such byte of row [k]; nothing was printed and the handle is open. *)
Theorem X9_first_undecodable_byte (path : string) (w : World) (f : NcFile)
    (N k : nat) (r : row) (b : ascii) :
  fs w !! path = Some f →
  is_Some (variables f !! "coordx") → is_Some (variables f !! "coordy") →
  dimensions f !! "num_nod_var" = Some N →
  k < N →
  (∀ i, i < k → ∃ r', name_nod_var_row f i = Ok r' ∧ decodable r') →
  name_nod_var_row f k = Ok r →
  first_bad_byte r = Some b →
  read_exodus_file path w = (Raise (UnicodeDecodeError b), opened w).
Proof.
  intros Hf Hx Hy HN Hk Hbefore Hr Hb.
  apply (read_first_failing_row path w f N k); try done.
  rewrite Hr. simpl. unfold decode_name.
  by rewrite (decode_units_first_bad _ b Hb).
Qed.

Lemma X9_first_undecodable_byte_witness :
  read_exodus_file "fr.e" (world_of "fr.e" latin1_file)
  = (Raise (UnicodeDecodeError (ascii_of_nat 233)), opened (world_of "fr.e" latin1_file)).
Proof.
  apply (X9_first_undecodable_byte "fr.e" (world_of "fr.e" latin1_file) latin1_file
           2 0 (map (λ c, (np_bytes_ c.1, c.2)) latin1_row)).
  - vm_compute. reflexivity.
  - vm_compute. by eexists.
  - vm_compute. by eexists.
  - vm_compute. reflexivity.
  - lia.
  - intros i Hi. lia.
  - vm_compute. reflexivity.
  - vm_compute. reflexivity.
Defined.

(** X10: a count larger than the name table.  When num_nod_var declares
    more names than name_nod_var has rows (the rows it has being
    decodable), [read_exodus_file] raises IndexError at the first missing
    row; when the table is absent altogether and the count is positive, it
    raises IndexError at position 0.  Nothing is returned for the rows
    that are there. *)
Theorem X10_count_exceeds_table (path : string) (w : World) (f : NcFile) (N : nat) :
  fs w !! path = Some f →
  is_Some (variables f !! "coordx") → is_Some (variables f !! "coordy") →
  dimensions f !! "num_nod_var" = Some N →
  (∀ table rs,
     variables f !! "name_nod_var" = Some table → rows_of table = Some rs →
     length rs < N → (∀ r, r ∈ rs → decodable r) →
     read_exodus_file path w
     = (Raise (IndexError "index exceeds dimension bounds"), opened w))
  ∧ (variables f !! "name_nod_var" = None → 0 < N →
     read_exodus_file path w
     = (Raise (IndexError "name_nod_var not found in /"), opened w)).
Proof.
  intros Hf Hx Hy HN. split.
  - intros table rs Ht Hrs Hlen Hdec.
    apply (read_first_failing_row path w f N (length rs)); try done.
    + intros i Hi. unfold name_nod_var_row. rewrite Ht, Hrs.
      destruct (lookup_lt_is_Some_2 rs i Hi) as [r Hr]. rewrite Hr.
      exists r. split; [done|]. apply Hdec. by apply (list_elem_of_lookup_2 _ i).
    + unfold name_nod_var_row. rewrite Ht, Hrs.
      by rewrite (lookup_ge_None_2 rs (length rs)).
  - intros Ht HN0.
    apply (read_first_failing_row path w f N 0); try done.
    + intros i Hi. lia.
    + unfold name_nod_var_row. by rewrite Ht.
Qed.

Lemma X10_count_exceeds_table_witness :
  read_exodus_file "s.e" (world_of "s.e" short_table_file)
  = (Raise (IndexError "index exceeds dimension bounds"),
     opened (world_of "s.e" short_table_file)).
Proof.
  refine (proj1 (X10_count_exceeds_table "s.e" (world_of "s.e" short_table_file)
                   short_table_file 3 _ _ _ _)
                (char_table [padded "Temp" 4; padded "Pressure" 0]) _ _ _ _ _).
  - vm_compute. reflexivity.
  - vm_compute. by eexists.
  - vm_compute. by eexists.
  - vm_compute. reflexivity.
  - vm_compute. reflexivity.
  - reflexivity.
  - simpl. lia.
  - intros r Hr. apply decode_name_strict_Ok.
    repeat (apply elem_of_cons in Hr as [->|Hr]; [eexists; vm_compute; reflexivity|]).
    by apply elem_of_nil in Hr.
Defined.

(** ** What a returning read carries *)

(** X11: the stored fields come back as they are.  In a returning read
    the time steps are the stored time_whole (or [np.array([0])]), the
    coordinates are the stored coordx, coordy and coordz (or zeros like
    x), the node count is [len(x)] and the element count is the size of
    num_elem, or [None] when that dimension is not declared. *)
Theorem X11_result_carries_stored_fields (path : string) (w : World) (f : NcFile)
    (data : ExtractedData) :
  fs w !! path = Some f →
  (read_exodus_file path w).1 = Ok data →
  ∃ x y n,
    variables f !! "coordx" = Some x ∧ variables f !! "coordy" = Some y
    ∧ len x = Ok n
    ∧ time_steps data = default array_of_zero (variables f !! "time_whole")
    ∧ coordinates data = (x, y, default (zeros_like x) (variables f !! "coordz"))
    ∧ mesh_shape data = (n, dimensions f !! "num_elem").
Proof.
  intros Hf Hdata. rewrite read_exodus_file_result, Hf in Hdata.
  apply extract_Ok_inv in Hdata as (x & y & n & N & Hx & Hy & Hn & _ & _ & ->).
  exists x, y, n. simpl.
  split; [done|]. split; [done|]. split; [done|]. split; [|by split].
  unfold read_time_steps. by destruct (variables f !! "time_whole").
Qed.

Lemma X11_result_carries_stored_fields_witness :
  ∃ x y n,
    variables twice_T_file !! "coordx" = Some x
    ∧ variables twice_T_file !! "coordy" = Some y
    ∧ len x = Ok n
    ∧ array_of_zero = default array_of_zero (variables twice_T_file !! "time_whole")
    ∧ (reals [0; 1; 2]%Z, reals [0; 0; 1]%Z, reals [0; 0; 0]%Z)
      = (x, y, default (zeros_like x) (variables twice_T_file !! "coordz"))
    ∧ (3, None) = (n, dimensions twice_T_file !! "num_elem").
Proof.
  apply (X11_result_carries_stored_fields "t.e" (world_of "t.e" twice_T_file)
           twice_T_file
           (mkExtractedData
              array_of_zero
              (reals [0; 1; 2]%Z, reals [0; 0; 1]%Z, reals [0; 0; 0]%Z)
              {[ "T" := real_table [[20; 21; 22]]%Z ]}
              ["T"; "T"] (3, None))).
  - vm_compute. reflexivity.
  - rewrite read_exodus_file_result. vm_compute. reflexivity.
Defined.

Lemma warnings_from_absent f names : ∀ i,
  warnings_from f i names
  = map (λ j, warning (vals_nod_var j))
        (filter (λ j, variables f !! vals_nod_var j = None) (seq i (length names))).
Proof.
  induction names as [|name rest IH]; intros i; [done|].
  cbn [warnings_from length seq]. rewrite filter_cons, IH. unfold warn_value.
  case_decide as E; destruct (variables f !! vals_nod_var i); done.
Qed.

(** X12: the warnings.  A returning read prints one warning line for each
    position below the declared count whose value array is absent, in the
    order of the positions, and prints nothing else. *)
Theorem X12_one_warning_per_absent_array (path : string) (w : World) (f : NcFile)
    (data : ExtractedData) (N : nat) :
  fs w !! path = Some f →
  (read_exodus_file path w).1 = Ok data →
  dimensions f !! "num_nod_var" = Some N →
  stdout (read_exodus_file path w).2
  = (stdout w ++ map (λ j, warning (vals_nod_var j)) (absent_positions f N))%list.
Proof.
  intros Hf Hdata HN.
  rewrite read_exodus_file_result, Hf in Hdata.
  rewrite read_exodus_file_run, Hf. rewrite Hdata. simpl.
  apply extract_Ok_inv in Hdata as (x & y & n & N' & Hx & Hy & Hn & HN' & Hnames & _).
  rewrite HN in HN'. injection HN' as <-.
  unfold extract_output, read_coordinates, getitem.
  rewrite Hx, Hy, HN. simpl. rewrite Hnames.
  rewrite warnings_from_absent. unfold absent_positions.
  apply rmap_length in Hnames. rewrite length_seq in Hnames. by rewrite Hnames.
Qed.

Lemma X12_one_warning_per_absent_array_witness :
  stdout (read_exodus_file "a.e" (world_of "a.e" temp_pressure_file)).2
  = (stdout (world_of "a.e" temp_pressure_file)
     ++ map (λ j, warning (vals_nod_var j)) (absent_positions temp_pressure_file 2))%list.
Proof.
  apply (X12_one_warning_per_absent_array "a.e" (world_of "a.e" temp_pressure_file)
           temp_pressure_file
           (mkExtractedData
              array_of_zero
              (reals [0; 1; 2]%Z, reals [0; 0; 1]%Z, reals [0; 0; 0]%Z)
              {[ "Temp" := real_table [[10; 11; 12]; [20; 21; 22]]%Z ]}
              ["Temp"; "Pressure"]
              (3, None)) 2).
  - vm_compute. reflexivity.
  - rewrite read_exodus_file_result. vm_compute. reflexivity.
  - vm_compute. reflexivity.
Defined.

(** ** The value mapping *)

Lemma node_data_from_unbound f name rest : ∀ i node_data,
  (∀ k, rest !! k = Some name → variables f !! vals_nod_var (i + k) = None) →
  node_data_from f i rest node_data !! name = node_data !! name.
Proof.
  induction rest as [|n rest IH]; intros i node_data H; simpl; [done|].
  rewrite IH.
  - unfold bind_value. destruct (variables f !! vals_nod_var i) as [a|] eqn:E; [|done].
    destruct (decide (n = name)) as [->|Hne]; [|by rewrite lookup_insert_ne].
    specialize (H 0 eq_refl). rewrite Nat.add_0_r in H. congruence.
  - intros k Hk. replace (S i + k) with (i + S k) by lia. by apply H.
Qed.

Lemma node_data_from_source f name a names : ∀ i node_data,
  node_data_from f i names node_data !! name = Some a →
  (node_data !! name = Some a
   ∧ ∀ k, names !! k = Some name → variables f !! vals_nod_var (i + k) = None)
  ∨ ∃ j, names !! j = Some name ∧ variables f !! vals_nod_var (i + j) = Some a
         ∧ ∀ k, j < k → names !! k = Some name →
                variables f !! vals_nod_var (i + k) = None.
Proof.
  induction names as [|n rest IH]; intros i node_data H; simpl in H.
  - left. split; [done|]. by intros k.
  - apply IH in H as [[Hm Hrest]|(j & Hj & Ha & Hlater)].
    + unfold bind_value in Hm.
      destruct (variables f !! vals_nod_var i) as [a'|] eqn:E.
      * destruct (decide (n = name)) as [->|Hne].
        -- rewrite lookup_insert_eq in Hm. injection Hm as ->.
           right. exists 0. rewrite Nat.add_0_r. split; [done|]. split; [done|].
           intros [|k] Hk Hn; [lia|]. simpl in Hn.
           replace (i + S k) with (S i + k) by lia. by apply Hrest.
        -- rewrite lookup_insert_ne in Hm by done.
           left. split; [done|]. intros [|k] Hk; simpl in Hk; [congruence|].
           replace (i + S k) with (S i + k) by lia. by apply Hrest.
      * left. split; [done|]. intros [|k] Hk; simpl in Hk.
        -- by rewrite Nat.add_0_r.
        -- replace (i + S k) with (S i + k) by lia. by apply Hrest.
    + right. exists (S j). replace (i + S j) with (S i + j) by lia.
      split; [done|]. split; [done|].
      intros [|k] Hk Hn; [lia|]. simpl in Hn.
      replace (i + S k) with (S i + k) by lia. apply Hlater; [lia|done].
Qed.

(** X13: which array stands under a name.  In a returning read the value
    mapping holds array [a] under a name exactly when [a] is the value
    array of the last position that carries this name and has its value
    array in the file. *)
Theorem X13_entry_is_last_present_position (path : string) (w : World) (f : NcFile)
    (data : ExtractedData) (name : string) (a : ndarray) :
  fs w !! path = Some f →
  (read_exodus_file path w).1 = Ok data →
  nodal_data data !! name = Some a
  ↔ ∃ j, nodal_vars data !! j = Some name
         ∧ variables f !! vals_nod_var j = Some a
         ∧ ∀ k, j < k → nodal_vars data !! k = Some name →
                variables f !! vals_nod_var k = None.
Proof.
  intros Hf Hdata. rewrite (read_Ok_inv path w f data Hf Hdata). split.
  - intros H. apply node_data_from_source in H as [[H _]|H]; [|done].
    by rewrite lookup_empty in H.
  - intros (j & Hj & Ha & Hlater).
    destruct (names_split _ j name Hj) as [Hsplit Hlen].
    rewrite Hsplit, node_data_from_app, Hlen. simpl.
    rewrite node_data_from_unbound.
    + unfold bind_value. rewrite Ha. apply lookup_insert_eq.
    + intros k Hk. rewrite lookup_drop in Hk.
      replace (S j + k) with (S (j + k)) by lia.
      apply Hlater; [lia|]. by replace (S (j + k)) with (S j + k) by lia.
Qed.

Lemma X13_entry_is_last_present_position_witness :
  ({[ "T" := real_table [[20; 21; 22]]%Z ]} : gmap string ndarray) !! "T"
  = Some (real_table [[20; 21; 22]]%Z)
  ↔ ∃ j, ["T"; "T"] !! j = Some "T"
         ∧ variables twice_T_file !! vals_nod_var j = Some (real_table [[20; 21; 22]]%Z)
         ∧ ∀ k, j < k → ["T"; "T"] !! k = Some "T" →
                variables twice_T_file !! vals_nod_var k = None.
Proof.
  refine (X13_entry_is_last_present_position "t.e" (world_of "t.e" twice_T_file)
            twice_T_file
            (mkExtractedData
               array_of_zero
               (reals [0; 1; 2]%Z, reals [0; 0; 1]%Z, reals [0; 0; 0]%Z)
               {[ "T" := real_table [[20; 21; 22]]%Z ]}
               ["T"; "T"] (3, None))
            "T" (real_table [[20; 21; 22]]%Z) _ _).
  - vm_compute. reflexivity.
  - rewrite read_exodus_file_result. vm_compute. reflexivity.
Defined.

Lemma node_data_from_count f names : ∀ i node_data,
  NoDup names →
  (∀ name, name ∈ names → node_data !! name = None) →
  size (node_data_from f i names node_data)
  + length (filter (λ j, variables f !! vals_nod_var j = None) (seq i (length names)))
  = size node_data + length names.
Proof.
  induction names as [|n rest IH]; intros i node_data Hnd Hfresh; [simpl; lia|].
  apply NoDup_cons in Hnd as [Hn Hrest].
  cbn [node_data_from length seq]. rewrite filter_cons. unfold bind_value.
  destruct (variables f !! vals_nod_var i) as [a|] eqn:E.
  - rewrite decide_False by done. rewrite IH; [|done|].
    + rewrite map_size_insert_None by (apply Hfresh; left). lia.
    + intros name Hname. rewrite lookup_insert_ne.
      * apply Hfresh. by right.
      * intros ->. done.
  - rewrite decide_True by done. cbn [length].
    rewrite Nat.add_succ_r, IH; [lia|done|].
    intros name Hname. apply Hfresh. by right.
Qed.

(** X14: distinct names.  When the decoded names of a returning read are
    pairwise different, the name at every position looks up exactly the
    value array of its own position (no entry when that array is absent),
    and the entries and the warnings together number the declared
    count. *)
Theorem X14_distinct_names_keep_positions (path : string) (w : World) (f : NcFile)
    (data : ExtractedData) (N : nat) :
  fs w !! path = Some f →
  (read_exodus_file path w).1 = Ok data →
  dimensions f !! "num_nod_var" = Some N →
  NoDup (nodal_vars data) →
  (∀ i name, nodal_vars data !! i = Some name →
     nodal_data data !! name = variables f !! vals_nod_var i)
  ∧ size (nodal_data data) + length (absent_positions f N) = N.
Proof.
  intros Hf Hdata HN Hnd.
  pose proof (read_Ok_inv path w f data Hf Hdata) as Hmap.
  rewrite read_exodus_file_result, Hf in Hdata.
  apply extract_Ok_inv in Hdata as (x & y & n & N' & _ & _ & _ & HN' & Hnames & _).
  rewrite HN in HN'. injection HN' as <-.
  apply rmap_length in Hnames. rewrite length_seq in Hnames.
  rewrite Hmap. split.
  - intros i name Hi.
    destruct (names_split _ i name Hi) as [Hsplit Hlen].
    assert (Huniq : ∀ j, j ≠ i → nodal_vars data !! j ≠ Some name).
    { intros j Hne Hj. apply Hne. by apply (NoDup_lookup _ j i name Hnd). }
    rewrite Hsplit at 1. rewrite node_data_from_app, Hlen. simpl.
    rewrite node_data_from_other.
    + unfold bind_value. destruct (variables f !! vals_nod_var i).
      * by rewrite lookup_insert_eq.
      * rewrite node_data_from_other; [by rewrite lookup_empty|].
        intros [j Hj]%list_elem_of_lookup.
        apply (Huniq j).
        -- apply lookup_lt_Some in Hj. rewrite Hlen in Hj. lia.
        -- rewrite lookup_take_Some in Hj. by destruct Hj.
    + intros [j Hj]%list_elem_of_lookup. rewrite lookup_drop in Hj.
      apply (Huniq (S i + j)); [lia|done].
  - unfold absent_positions. rewrite <- Hnames.
    rewrite node_data_from_count; [by rewrite map_size_empty|done|].
    intros name _. apply lookup_empty.
Qed.

Lemma X14_distinct_names_keep_positions_witness :
  (∀ i name, ["Temp"; "Pressure"] !! i = Some name →
     ({[ "Temp" := real_table [[10; 11; 12]; [20; 21; 22]]%Z ]} : gmap string ndarray)
       !! name
     = variables temp_pressure_file !! vals_nod_var i)
  ∧ size ({[ "Temp" := real_table [[10; 11; 12]; [20; 21; 22]]%Z ]} : gmap string ndarray)
    + length (absent_positions temp_pressure_file 2) = 2.
Proof.
  refine (X14_distinct_names_keep_positions "a.e" (world_of "a.e" temp_pressure_file)
            temp_pressure_file
            (mkExtractedData
               array_of_zero
               (reals [0; 1; 2]%Z, reals [0; 0; 1]%Z, reals [0; 0; 0]%Z)
               {[ "Temp" := real_table [[10; 11; 12]; [20; 21; 22]]%Z ]}
               ["Temp"; "Pressure"]
               (3, None)) 2 _ _ _ _).
  - vm_compute. reflexivity.
  - rewrite read_exodus_file_result. vm_compute. reflexivity.
  - vm_compute. reflexivity.
  - simpl. repeat constructor; rewrite ?elem_of_cons, ?elem_of_nil; intuition discriminate.
Defined.

(** ** Handles over a call *)

Lemma next_handle_fresh w : handles_below_next w → next_handle w ∉ open_handles w.
Proof. intros H Hin. apply H in Hin. lia. Qed.

Lemma opened_below_next w lines :
  handles_below_next w → handles_below_next (printed (opened w) lines).
Proof.
  intros H h. simpl. intros [Hh|Hh]%elem_of_union.
  - apply elem_of_singleton in Hh as ->. lia.
  - apply H in Hh. lia.
Qed.

Lemma closed_below_next h w : handles_below_next w → handles_below_next (closed h w).
Proof.
  intros H h'. simpl. intros [Hh _]%elem_of_difference. by apply H.
Qed.

Lemma closed_opened_handles w lines :
  handles_below_next w →
  open_handles (closed (next_handle w) (printed (opened w) lines)) = open_handles w.
Proof.
  intros H. simpl. apply set_eq. intros h.
  rewrite elem_of_difference, elem_of_union, elem_of_singleton. split.
  - intros [[->|Hh] Hne]; done.
  - intros Hh. split; [by right|]. intros ->. by apply (next_handle_fresh w H).
Qed.

(** X15: the account of handles.  In a world where every open handle was
    handed out earlier, a call of either reader keeps that so; a call that
    returns leaves exactly the handles that were open before it; a call
    that raises after the open leaves exactly one more, which is new; a
    path that does not open leaves the world as it was. *)
Theorem X15_handles_accounted (path : string) (w : World) :
  handles_below_next w →
  handles_accounted read_exodus_file path w
  ∧ handles_accounted inspect_exodus_file path w.
Proof.
  intros H. unfold handles_accounted.
  rewrite read_exodus_file_run, inspect_exodus_file_run.
  destruct (fs w !! path) as [f|]; [|done].
  split.
  - destruct (extract f) as [data|e] eqn:E.
    + split; [by apply closed_below_next, opened_below_next|].
      split; [by apply closed_opened_handles|done].
    + split; [by apply opened_below_next|].
      apply extract_Raise in E.
      destruct e; try done; (split; [done|]); (split; [by apply next_handle_fresh|done]).
  - destruct (decode_tables (name_tables f)) as [names|e] eqn:E.
    + split; [by apply closed_below_next, (opened_below_next w [])|].
      split; [by apply (closed_opened_handles w [])|done].
    + split; [by apply (opened_below_next w [])|].
      apply decode_tables_Raise in E as [what ->].
      split; [done|]. split; [by apply next_handle_fresh|done].
Qed.

Lemma X15_handles_accounted_witness :
  handles_accounted read_exodus_file "a.e" (world_of "a.e" temp_pressure_file)
  ∧ handles_accounted inspect_exodus_file "a.e" (world_of "a.e" temp_pressure_file).
Proof.
  apply (X15_handles_accounted "a.e" (world_of "a.e" temp_pressure_file)).
  intros h Hh. vm_compute in Hh. discriminate.
Defined.

(** ** inspect_exodus_file *)

Lemma rows_of_shape a rs : rows_of a = Some rs → ∃ sh, shape a = length rs :: sh.
Proof.
  destruct a as [[c|cs|rows]|[c|cs|rows]]; simpl; try done;
    intros [= <-]; rewrite length_map; by eexists.
Qed.

Lemma decode_table_rows a rs :
  rows_of a = Some rs →
  ∃ names, decode_table a = Ok names
           ∧ length names = length rs
           ∧ ∀ i r, rs !! i = Some r →
               names !! i = Some (decode_name_or_placeholder i r).
Proof.
  intros Hrs. destruct (rows_of_shape a rs Hrs) as [sh Hsh].
  unfold decode_table. rewrite Hsh.
  destruct (rmap_Ok (λ i, try! r <- array_row a i; Ok (decode_name_or_placeholder i r))
              (seq 0 (length rs))) as [names Hnames].
  { intros i Hi. apply elem_of_seq in Hi. unfold array_row. rewrite Hrs.
    destruct (lookup_lt_is_Some_2 rs i) as [r ->]; [lia|]. simpl. by eexists. }
  exists names. split; [done|].
  pose proof (rmap_length _ _ _ Hnames) as Hlen. rewrite length_seq in Hlen.
  split; [done|]. intros i r Hr.
  destruct (lookup_lt_is_Some_2 names i) as [y Hy].
  { rewrite Hlen. by apply lookup_lt_Some in Hr. }
  rewrite Hy. destruct (rmap_lookup _ _ _ _ _ Hnames Hy) as (j & Hj & Hg).
  apply lookup_seq in Hj as [-> _]. simpl in Hg.
  unfold array_row in Hg. rewrite Hrs, Hr in Hg. simpl in Hg. by injection Hg as <-.
Qed.

Lemma decode_table_Ok_iff a :
  (∃ names, decode_table a = Ok names) ↔ inspectable_table a.
Proof.
  unfold inspectable_table. split.
  - intros [names H]. destruct (rows_of a) as [rs|] eqn:Hrs; [left; by eexists|].
    right. unfold decode_table in H.
    destruct a as [[c|cs|rows]|[c|cs|rows]]; simpl in *; try done;
      destruct cs as [|c cs]; try done; simpl in H;
      unfold array_row in H; simpl in H; done.
  - intros [[rs Hrs]|Hsh].
    + destruct (decode_table_rows a rs Hrs) as (names & H & _). by exists names.
    + unfold decode_table. rewrite Hsh. by exists [].
Qed.

Lemma name_tables_elem f c a :
  (c, a) ∈ name_tables f →
  ∃ v, v ∈ name_table_fields ∧ variables f !! v = Some a.
Proof.
  unfold name_tables, name_table_fields.
  intros ([c' v] & Hin & Hv)%list_elem_of_omap. simpl in Hv.
  destruct (variables f !! v) as [a'|] eqn:E; simpl in Hv; [|done].
  injection Hv as <- <-. exists v. split; [|done].
  repeat (apply elem_of_cons in Hin as [Hin|Hin];
          [injection Hin as _ ->; rewrite !elem_of_cons; auto|]).
  by apply elem_of_nil in Hin.
Qed.

Lemma name_tables_field f v a :
  v ∈ name_table_fields → variables f !! v = Some a →
  ∃ c, (c, a) ∈ name_tables f.
Proof.
  unfold name_tables, name_table_fields. intros Hv Ha.
  repeat (apply elem_of_cons in Hv as [->|Hv];
          [eexists; apply list_elem_of_omap; eexists (_, _);
           split; [|simpl; rewrite Ha; reflexivity];
           rewrite !elem_of_cons; auto|]).
  by apply elem_of_nil in Hv.
Qed.

(** X16: when the inspector returns.  [inspect_exodus_file] returns
    exactly when the path opens and each of name_glo_var, name_nod_var and
    name_elem_var that the file has is an array of rank 2 (or an empty
    array of rank 1); on every other file that opens it raises IndexError,
    and nothing else. *)
Theorem X16_inspector_returns_iff (path : string) (w : World) :
  ((∃ inspected, (inspect_exodus_file path w).1 = Ok inspected)
   ↔ ∃ f, fs w !! path = Some f
          ∧ ∀ v a, v ∈ name_table_fields → variables f !! v = Some a →
                   inspectable_table a)
  ∧ ∀ e, (inspect_exodus_file path w).1 = Raise e →
         e = OSError path ∨ ∃ what, e = IndexError what.
Proof.
  rewrite inspect_exodus_file_run. split; [split|].
  - intros [inspected H]. destruct (fs w !! path) as [f|]; [|done].
    exists f. split; [done|]. intros v a Hv Ha.
    destruct (decode_tables (name_tables f)) as [cats|] eqn:E; [|done].
    destruct (name_tables_field f v a Hv Ha) as [c Hc].
    destruct (rmap_Ok_inv _ _ _ _ E Hc) as [y Hy]. simpl in Hy.
    apply decode_table_Ok_iff.
    destruct (decode_table a) as [names|]; [by eexists|done].
  - intros (f & -> & Hf).
    destruct (rmap_Ok (λ t : string * ndarray,
                         try! names <- decode_table t.2; Ok (t.1, names))
                (name_tables f)) as [cats Hcats].
    { intros [c a] Hc. simpl.
      destruct (name_tables_elem f c a Hc) as (v & Hv & Ha).
      destruct (proj2 (decode_table_Ok_iff a) (Hf v a Hv Ha)) as [names ->].
      by eexists. }
    unfold decode_tables. rewrite Hcats. by eexists.
  - intros e H. destruct (fs w !! path) as [f|].
    + right. destruct (decode_tables (name_tables f)) as [cats|] eqn:E; [done|].
      simpl in H. injection H as ->. by apply decode_tables_Raise in E.
    + left. simpl in H. by injection H.
Qed.

Lemma rmap_elem_Ok {A B} (g : A → result B) xs ys x :
  rmap g xs = Ok ys → x ∈ xs → ∃ y, g x = Ok y ∧ y ∈ ys.
Proof.
  revert ys. induction xs as [|x' xs IH]; simpl; intros ys H Hx.
  - by apply elem_of_nil in Hx.
  - destruct (g x') as [y'|] eqn:E; simpl in H; [|done].
    destruct (rmap g xs) as [ys'|]; simpl in H; [|done].
    injection H as <-. apply elem_of_cons in Hx as [->|Hx].
    + exists y'. split; [done|left].
    + destruct (IH ys' eq_refl Hx) as (y & Hy & Hin).
      exists y. split; [done|by right].
Qed.

Lemma name_tables_spec f c a :
  (c, a) ∈ name_tables f
  ↔ ∃ v, (c, v) ∈ category_fields ∧ variables f !! v = Some a.
Proof.
  unfold name_tables. fold category_fields. rewrite list_elem_of_omap. split.
  - intros ([c' v] & Hin & Hv). simpl in Hv.
    destruct (variables f !! v) as [a'|] eqn:E; simpl in Hv; [|done].
    injection Hv as <- <-. by exists v.
  - intros (v & Hin & Hv). exists (c, v). split; [done|]. simpl. by rewrite Hv.
Qed.

Lemma category_fields_functional c v v' :
  (c, v) ∈ category_fields → (c, v') ∈ category_fields → v = v'.
Proof.
  unfold category_fields. rewrite !elem_of_cons, !elem_of_nil.
  intros [H|[H|[H|[]]]] [H'|[H'|[H'|[]]]]; congruence.
Qed.

(** X17: what the inspector returns.  The first component has an entry
    for each variable of the file and for nothing else.  In the second, a
    category is listed exactly when its name table is in the file (Global
    for name_glo_var, Nodal for name_nod_var, Elemental for
    name_elem_var), and it lists one name for each row of that table. *)
Theorem X17_inspector_result_shape (path : string) (w : World) (f : NcFile)
    (info : gmap string var_info) (cats : list (string * list string)) :
  fs w !! path = Some f →
  (inspect_exodus_file path w).1 = Ok (info, cats) →
  dom info = dom (variables f)
  ∧ (∀ c v, (c, v) ∈ category_fields →
       (c ∈ map fst cats ↔ is_Some (variables f !! v)))
  ∧ (∀ c names, (c, names) ∈ cats →
       ∃ v a n sh, (c, v) ∈ category_fields ∧ variables f !! v = Some a
                   ∧ shape a = n :: sh ∧ length names = n).
Proof.
  intros Hf H. rewrite inspect_exodus_file_run, Hf in H.
  destruct (decode_tables (name_tables f)) as [cats'|] eqn:E; [|done].
  simpl in H. injection H as <- <-. unfold decode_tables in E.
  split; [apply dom_fmap_L|]. split.
  - intros c v Hcv. rewrite list_elem_of_In, in_map_iff. split.
    + intros ([c' names] & <- & Hin%list_elem_of_In). simpl.
      destruct (rmap_Ok_elem _ _ _ _ E Hin) as ([c'' a] & Hca & Hg). simpl in Hg.
      destruct (decode_table a); simpl in Hg; [|done]. injection Hg as -> _.
      apply name_tables_spec in Hca as (v' & Hv' & Ha).
      rewrite (category_fields_functional _ _ _ Hcv Hv'). by eexists.
    + intros [a Ha].
      assert (Hca : (c, a) ∈ name_tables f) by (apply name_tables_spec; by exists v).
      destruct (rmap_elem_Ok _ _ _ _ E Hca) as ([c' names] & Hg & Hin). simpl in Hg.
      destruct (decode_table a); simpl in Hg; [|done]. injection Hg as <- _.
      exists (c, names). split; [done|]. by apply list_elem_of_In.
  - intros c names Hin.
    destruct (rmap_Ok_elem _ _ _ _ E Hin) as ([c' a] & Hca & Hg). simpl in Hg.
    destruct (decode_table a) as [names'|] eqn:Ed; simpl in Hg; [|done].
    injection Hg as -> ->.
    apply name_tables_spec in Hca as (v & Hv & Ha).
    unfold decode_table in Ed. destruct (shape a) as [|n sh] eqn:Hsh; [done|].
    apply rmap_length in Ed. rewrite length_seq in Ed.
    by exists v, a, n, sh.
Qed.

Lemma X17_inspector_result_shape_witness :
  dom (describe <$> variables latin1_file) = dom (variables latin1_file)
  ∧ (∀ c v, (c, v) ∈ category_fields →
       (c ∈ map fst [("Nodal Variables", ["Temprature"; "Pressure"])]
        ↔ is_Some (variables latin1_file !! v)))
  ∧ (∀ c names, (c, names) ∈ [("Nodal Variables", ["Temprature"; "Pressure"])] →
       ∃ v a n sh, (c, v) ∈ category_fields ∧ variables latin1_file !! v = Some a
                   ∧ shape a = n :: sh ∧ length names = n).
Proof.
  refine (X17_inspector_result_shape "fr.e" (world_of "fr.e" latin1_file) latin1_file
            (describe <$> variables latin1_file)
            [("Nodal Variables", ["Temprature"; "Pressure"])] _ _).
  - vm_compute. reflexivity.
  - rewrite inspect_exodus_file_run. vm_compute. reflexivity.
Defined.

(** X18: the two readers on one file.  When [read_exodus_file] and
    [inspect_exodus_file] both return on a file that has name_nod_var, the
    inspector's Nodal Variables begin with the reader's name list: the
    names agree position by position up to the declared count. *)
Theorem X18_inspector_lists_reader_names (path path' : string) (w w' : World)
    (f : NcFile) (data : ExtractedData) (info : gmap string var_info)
    (cats : list (string * list string)) :
  fs w !! path = Some f → fs w' !! path' = Some f →
  (read_exodus_file path w).1 = Ok data →
  (inspect_exodus_file path' w').1 = Ok (info, cats) →
  is_Some (variables f !! "name_nod_var") →
  ∃ names, ("Nodal Variables", names) ∈ cats
           ∧ take (length (nodal_vars data)) names = nodal_vars data.
Proof.
  intros Hf Hf' Hdata Hinsp [a Ha].
  rewrite inspect_exodus_file_run, Hf' in Hinsp.
  destruct (decode_tables (name_tables f)) as [cats'|] eqn:E; [|done].
  simpl in Hinsp. injection Hinsp as <- <-. unfold decode_tables in E.
  assert (Hca : ("Nodal Variables", a) ∈ name_tables f).
  { apply name_tables_spec. exists "name_nod_var". split; [|done].
    unfold category_fields. rewrite !elem_of_cons. auto. }
  destruct (rmap_elem_Ok _ _ _ _ E Hca) as ([c names] & Hg & Hin). simpl in Hg.
  destruct (decode_table a) as [names'|] eqn:Ed; simpl in Hg; [|done].
  injection Hg as <- <-. exists names'. split; [done|].
  destruct (read_names_by_row path w f data Hf Hdata) as (N & HN & Hlen & Hrows).
  apply list_eq. intros i.
  destruct (nodal_vars data !! i) as [name|] eqn:Hi.
  - destruct (Hrows i name Hi) as (r & Hr & Hdec).
    unfold name_nod_var_row in Hr. rewrite Ha in Hr.
    destruct (rows_of a) as [rs|] eqn:Hrs; [|done].
    destruct (rs !! i) as [r'|] eqn:Hri; [|done]. injection Hr as ->.
    destruct (decode_table_rows a rs Hrs) as (names'' & Hd & _ & Hnames).
    rewrite Ed in Hd. injection Hd as <-.
    rewrite lookup_take_lt by (by apply lookup_lt_Some in Hi).
    rewrite (Hnames i r Hri). f_equal. by apply strict_name_is_inspector_name.
  - apply lookup_ge_None in Hi. by rewrite lookup_take_ge.
Qed.

Lemma X18_inspector_lists_reader_names_witness :
  ∃ names, ("Nodal Variables", names) ∈ [("Nodal Variables", ["Temp"; "Pressure"])]
           ∧ take (length ["Temp"; "Pressure"]) names = ["Temp"; "Pressure"].
Proof.
  refine (X18_inspector_lists_reader_names "a.e" "a.e"
            (world_of "a.e" temp_pressure_file) (world_of "a.e" temp_pressure_file)
            temp_pressure_file
            (mkExtractedData
               array_of_zero
               (reals [0; 1; 2]%Z, reals [0; 0; 1]%Z, reals [0; 0; 0]%Z)
               {[ "Temp" := real_table [[10; 11; 12]; [20; 21; 22]]%Z ]}
               ["Temp"; "Pressure"]
               (3, None))
            (describe <$> variables temp_pressure_file)
            [("Nodal Variables", ["Temp"; "Pressure"])] _ _ _ _ _).
  - vm_compute. reflexivity.
  - vm_compute. reflexivity.
  - rewrite read_exodus_file_result. vm_compute. reflexivity.
  - rewrite inspect_exodus_file_run. vm_compute. reflexivity.
  - vm_compute. by eexists.
Defined.

(** ** Selecting the values to plot (visualize_data) *)

Lemma node_data_from_None f name names : ∀ i node_data,
  node_data_from f i names node_data !! name = None →
  node_data !! name = None
  ∧ ∀ k, names !! k = Some name → variables f !! vals_nod_var (i + k) = None.
Proof.
  induction names as [|n rest IH]; intros i node_data H; simpl in H.
  - split; [done|]. by intros k.
  - apply IH in H as [Hm Hrest]. unfold bind_value in Hm.
    destruct (variables f !! vals_nod_var i) as [a|] eqn:E.
    + destruct (decide (n = name)) as [->|Hne];
        [by rewrite lookup_insert_eq in Hm|].
      rewrite lookup_insert_ne in Hm by done. split; [done|].
      intros [|k] Hk; simpl in Hk; [congruence|].
      replace (i + S k) with (S i + k) by lia. by apply Hrest.
    + split; [done|]. intros [|k] Hk; simpl in Hk.
      * by rewrite Nat.add_0_r.
      * replace (i + S k) with (S i + k) by lia. by apply Hrest.
Qed.

(** X19: a name that cannot be plotted.  After a returning read, selecting
    a name raises KeyError at every time index exactly when no position
    carrying that name has its value array in the file; the name list the
    user selects from still offers such a name. *)
Theorem X19_name_without_array_raises (path : string) (w : World) (f : NcFile)
    (data : ExtractedData) (selected_var : string) :
  fs w !! path = Some f →
  (read_exodus_file path w).1 = Ok data →
  (∀ t, var_values data selected_var t = Raise (KeyError selected_var)
        ∧ visualize_frame data selected_var t = Raise (KeyError selected_var))
  ↔ ∀ j, nodal_vars data !! j = Some selected_var →
         variables f !! vals_nod_var j = None.
Proof.
  intros Hf Hdata.
  pose proof (read_Ok_inv path w f data Hf Hdata) as Hmap. split.
  - intros H j Hj. destruct (H 0) as [H0 _].
    unfold var_values, getitem in H0.
    destruct (nodal_data data !! selected_var) as [arr|] eqn:E.
    + simpl in H0. unfold index_first_axis in H0.
      destruct arr as [[c|cs|rows]|[c|cs|rows]]; simpl in H0; try done;
        repeat case_match; done.
    + rewrite Hmap in E. apply node_data_from_None in E as [_ E]. by apply (E j).
  - intros H t.
    assert (E : nodal_data data !! selected_var = None).
    { rewrite Hmap, node_data_from_unbound; [apply lookup_empty|done]. }
    assert (Hv : var_values data selected_var t = Raise (KeyError selected_var)).
    { unfold var_values, getitem. by rewrite E. }
    split; [done|]. unfold visualize_frame.
    destruct (coordinates data) as [[x y] z]. by rewrite Hv.
Qed.

Lemma X19_name_without_array_raises_witness :
  (∀ t, var_values
          (mkExtractedData
             array_of_zero
             (reals [0; 1; 2]%Z, reals [0; 0; 1]%Z, reals [0; 0; 0]%Z)
             {[ "Temp" := real_table [[10; 11; 12]; [20; 21; 22]]%Z ]}
             ["Temp"; "Pressure"]
             (3, None)) "Pressure" t = Raise (KeyError "Pressure")
        ∧ visualize_frame
            (mkExtractedData
               array_of_zero
               (reals [0; 1; 2]%Z, reals [0; 0; 1]%Z, reals [0; 0; 0]%Z)
               {[ "Temp" := real_table [[10; 11; 12]; [20; 21; 22]]%Z ]}
               ["Temp"; "Pressure"]
               (3, None)) "Pressure" t = Raise (KeyError "Pressure"))
  ↔ ∀ j, ["Temp"; "Pressure"] !! j = Some "Pressure" →
         variables temp_pressure_file !! vals_nod_var j = None.
Proof.
  refine (X19_name_without_array_raises "a.e" (world_of "a.e" temp_pressure_file)
            temp_pressure_file
            (mkExtractedData
               array_of_zero
               (reals [0; 1; 2]%Z, reals [0; 0; 1]%Z, reals [0; 0; 0]%Z)
               {[ "Temp" := real_table [[10; 11; 12]; [20; 21; 22]]%Z ]}
               ["Temp"; "Pressure"]
               (3, None)) "Pressure" _ _).
  - vm_compute. reflexivity.
  - rewrite read_exodus_file_result. vm_compute. reflexivity.
Defined.

(** X20: the time index.  Selecting the values of a variable at a time
    index returns exactly when the mapping has an entry for the name and
    the index is below the length of its array; with no entry it raises
    KeyError, and with an entry of rank 0 or an index at or beyond the
    length it raises IndexError. *)
Theorem X20_values_at_time_index (data : ExtractedData) (selected_var : string)
    (t : nat) :
  ((∃ values, var_values data selected_var t = Ok values)
   ↔ ∃ arr n, nodal_data data !! selected_var = Some arr
              ∧ len arr = Ok n ∧ t < n)
  ∧ (nodal_data data !! selected_var = None →
     var_values data selected_var t = Raise (KeyError selected_var))
  ∧ (∀ arr, nodal_data data !! selected_var = Some arr →
       (∀ n, len arr = Ok n → (n ≤ t)%nat) →
       ∃ what, var_values data selected_var t = Raise (IndexError what)).
Proof.
  unfold var_values, getitem. split; [split|split].
  - intros [values H].
    destruct (nodal_data data !! selected_var) as [arr|]; [|done].
    simpl in H. exists arr.
    destruct arr as [[c|cs|rows]|[c|cs|rows]]; unfold len; simpl in *; try done.
    + destruct (cs !! t) eqn:E; [|done]. apply lookup_lt_Some in E. by eexists.
    + destruct (rows !! t) eqn:E; [|done]. apply lookup_lt_Some in E. by eexists.
    + destruct (cs !! t) eqn:E; [|done]. apply lookup_lt_Some in E. by eexists.
    + destruct (rows !! t) eqn:E; [|done]. apply lookup_lt_Some in E. by eexists.
  - intros (arr & n & -> & Hn & Ht). simpl.
    destruct arr as [[c|cs|rows]|[c|cs|rows]]; unfold len in Hn; simpl in *;
      try done; injection Hn as <-.
    + destruct (lookup_lt_is_Some_2 cs t Ht) as [c ->]. by eexists.
    + destruct (lookup_lt_is_Some_2 rows t Ht) as [r ->]. by eexists.
    + destruct (lookup_lt_is_Some_2 cs t Ht) as [c ->]. by eexists.
    + destruct (lookup_lt_is_Some_2 rows t Ht) as [r ->]. by eexists.
  - by intros ->.
  - intros arr -> Hlen. simpl.
    destruct arr as [[c|cs|rows]|[c|cs|rows]]; unfold len in Hlen; simpl in *;
      try (by eexists).
    + rewrite lookup_ge_None_2 by (by apply Hlen). by eexists.
    + rewrite lookup_ge_None_2 by (by apply Hlen). by eexists.
    + rewrite lookup_ge_None_2 by (by apply Hlen). by eexists.
    + rewrite lookup_ge_None_2 by (by apply Hlen). by eexists.
Qed.

Lemma X20_values_at_time_index_witness :
  (∃ values,
     var_values
       (mkExtractedData
          array_of_zero
          (reals [0; 1; 2]%Z, reals [0; 0; 1]%Z, reals [0; 0; 0]%Z)
          {[ "Temp" := real_table [[10; 11; 12]; [20; 21; 22]]%Z ]}
          ["Temp"; "Pressure"] (3, None)) "Temp" 1 = Ok values).
Proof.
  apply (proj1 (X20_values_at_time_index
                  (mkExtractedData
                     array_of_zero
                     (reals [0; 1; 2]%Z, reals [0; 0; 1]%Z, reals [0; 0; 0]%Z)
                     {[ "Temp" := real_table [[10; 11; 12]; [20; 21; 22]]%Z ]}
                     ["Temp"; "Pressure"] (3, None)) "Temp" 1)).
  exists (real_table [[10; 11; 12]; [20; 21; 22]]%Z), 2.
  split; [vm_compute; reflexivity|]. split; [reflexivity|lia].
Defined.

(** X21: the columns handed to the plot.  When the values are selected,
    the dictionary for the data frame holds them under the selected name.
    It holds x and y under their own keys only if the selected name is
    not that key: a variable named x (or y) takes the place of the
    coordinate column, and the dictionary then has two entries instead of
    three.  The z coordinates are not part of it. *)
Theorem X21_frame_columns (data : ExtractedData) (selected_var : string) (t : nat)
    (frame : gmap string ndarray) :
  visualize_frame data selected_var t = Ok frame →
  ∃ values,
    var_values data selected_var t = Ok values
    ∧ frame !! selected_var = Some values
    ∧ (selected_var ≠ "x" → frame !! "x" = Some (coordinates data).1.1)
    ∧ (selected_var ≠ "y" → frame !! "y" = Some (coordinates data).1.2)
    ∧ dom frame = {[ "x"; "y"; selected_var ]}
    ∧ size frame = (if decide (selected_var = "x" ∨ selected_var = "y") then 2 else 3).
Proof.
  unfold visualize_frame. destruct (coordinates data) as [[x y] z]. simpl.
  destruct (var_values data selected_var t) as [values|]; simpl; [|done].
  intros [= <-]. exists values. unfold frame_columns.
  split; [done|]. split; [apply lookup_insert_eq|].
  split; [intros H; by rewrite lookup_insert_ne, lookup_insert_ne, lookup_insert_eq|].
  split; [intros H; by rewrite lookup_insert_ne, lookup_insert_eq|].
  split.
  - rewrite !dom_insert_L, dom_empty_L. apply set_eq. intros k.
    rewrite !elem_of_union, !elem_of_singleton, elem_of_empty. tauto.
  - assert (H1 : ∀ (k : string) (v : ndarray), size (<[k := v]> (∅ : gmap string ndarray)) = 1).
    { intros k v. rewrite map_size_insert_None by apply lookup_empty.
      by rewrite map_size_empty. }
    case_decide as Hd.
    + destruct Hd as [-> | ->].
      * rewrite (insert_insert_ne _ "x" "y") by done.
        rewrite insert_insert_eq.
        rewrite map_size_insert_None
          by (rewrite lookup_insert_ne by done; apply lookup_empty).
        by rewrite H1.
      * rewrite insert_insert_eq.
        rewrite map_size_insert_None
          by (rewrite lookup_insert_ne by done; apply lookup_empty).
        by rewrite H1.
    + rewrite map_size_insert_None.
      * rewrite map_size_insert_None
          by (rewrite lookup_insert_ne by done; apply lookup_empty).
        by rewrite H1.
      * rewrite lookup_insert_ne by (intros <-; apply Hd; auto).
        rewrite lookup_insert_ne by (intros <-; apply Hd; auto).
        apply lookup_empty.
Qed.

Lemma X21_frame_columns_witness :
  ∃ values,
    var_values
      (mkExtractedData
         array_of_zero
         (reals [0; 1; 2]%Z, reals [0; 0; 1]%Z, reals [0; 0; 0]%Z)
         {[ "x" := real_table [[7; 8; 9]]%Z ]} ["x"] (3, None)) "x" 0 = Ok values
    ∧ ({[ "x" := reals [7; 8; 9]%Z; "y" := reals [0; 0; 1]%Z ]} : gmap string ndarray)
        !! "x" = Some values
    ∧ ("x" ≠ "x" →
       ({[ "x" := reals [7; 8; 9]%Z; "y" := reals [0; 0; 1]%Z ]} : gmap string ndarray)
         !! "x" = Some (reals [0; 1; 2]%Z))
    ∧ ("x" ≠ "y" →
       ({[ "x" := reals [7; 8; 9]%Z; "y" := reals [0; 0; 1]%Z ]} : gmap string ndarray)
         !! "y" = Some (reals [0; 0; 1]%Z))
    ∧ dom ({[ "x" := reals [7; 8; 9]%Z; "y" := reals [0; 0; 1]%Z ]} : gmap string ndarray)
      = {[ "x"; "y"; "x" ]}
    ∧ size ({[ "x" := reals [7; 8; 9]%Z; "y" := reals [0; 0; 1]%Z ]} : gmap string ndarray)
      = (if decide ("x" = "x" ∨ "x" = "y") then 2 else 3).
Proof.
  refine (X21_frame_columns
            (mkExtractedData
               array_of_zero
               (reals [0; 1; 2]%Z, reals [0; 0; 1]%Z, reals [0; 0; 0]%Z)
               {[ "x" := real_table [[7; 8; 9]]%Z ]} ["x"] (3, None))
            "x" 0 _ _).
  vm_compute. reflexivity.
Defined.

Lemma X6_read_returns_iff_valid_witness :
  ∃ data, (read_exodus_file "a.e" (world_of "a.e" temp_pressure_file)).1 = Ok data.
Proof.
  apply (proj2 (X6_read_returns_iff_valid "a.e" (world_of "a.e" temp_pressure_file))).
  exists temp_pressure_file, 2. split; [vm_compute; reflexivity|].
  apply valid_file_extract. split; [vm_compute; reflexivity|].
  eexists. vm_compute. reflexivity.
Defined.

Lemma X16_inspector_returns_iff_witness :
  ∃ inspected,
    (inspect_exodus_file "a.e" (world_of "a.e" temp_pressure_file)).1 = Ok inspected.
Proof.
  apply (proj2 (proj1 (X16_inspector_returns_iff "a.e"
                         (world_of "a.e" temp_pressure_file)))).
  exists temp_pressure_file. split; [vm_compute; reflexivity|].
  intros v a Hv Ha. left.
  unfold name_table_fields in Hv.
  repeat (apply elem_of_cons in Hv as [->|Hv];
          [vm_compute in Ha; try discriminate; injection Ha as <-;
           vm_compute; by eexists|]).
  by apply elem_of_nil in Hv.
Defined.

(** ** The two scripts *)


(** X23: the inspector's temporary file.  The script writes the upload to
    temp_exodus_file.e and never removes it: afterwards the file store
    holds the upload under that path, replacing what was there, whether
    the inspection returned or raised.  An exception of the inspection is
    not caught: the script raises it. *)
Theorem X23_inspector_temp_file {R} (upload : NcFile)
    (render : gmap string var_info * list (string * list string) → result R)
    (w : World) :
  fs (inspector_script upload render w).2 = <["temp_exodus_file.e" := upload]> (fs w)
  ∧ (inspector_script upload render w).1
    = match decode_tables (name_tables upload) with
      | Ok cats => render (describe <$> variables upload, cats)
      | Raise e => Raise e
      end
  ∧ ∀ upload' render',
      fs (inspector_script (R:=R) upload' render' (inspector_script upload render w).2).2
      = <["temp_exodus_file.e" := upload']> (fs w).
Proof.
  assert (H : ∀ (u : NcFile) r (w0 : World),
            fs (inspector_script (R:=R) u r w0).2 = <["temp_exodus_file.e" := u]> (fs w0)
            ∧ (inspector_script u r w0).1
              = match decode_tables (name_tables u) with
                | Ok cats => r (describe <$> variables u, cats)
                | Raise e => Raise e
                end).
  { intros u r w0. unfold inspector_script, bind, write_upload, lift.
    cbn [fst snd]. rewrite !inspect_exodus_file_run. cbn [fs].
    rewrite lookup_insert_eq.
    destruct (decode_tables (name_tables u)) as [cats|e]; cbn [fst snd]; [|done].
    by destruct (r _). }
  destruct (H upload render w) as [H1 H2]. split; [done|]. split; [done|].
  intros upload' render'. destruct (H upload' render' (inspector_script upload render w).2)
    as [H1' _].
  by rewrite H1', H1, insert_insert_eq.
Qed.

Lemma inspect_exodus_file_result path w :
  (inspect_exodus_file path w).1
  = match fs w !! path with
    | None => Raise (OSError path)
    | Some f =>
        match decode_tables (name_tables f) with
        | Ok cats => Ok (describe <$> variables f, cats)
        | Raise e => Raise e
        end
    end.
Proof.
  rewrite inspect_exodus_file_run.
  destruct (fs w !! path) as [f|]; [|done].
  by destruct (decode_tables (name_tables f)).
Qed.

Lemma inspect_exodus_file_fs path w : fs (inspect_exodus_file path w).2 = fs w.
Proof.
  rewrite inspect_exodus_file_run.
  destruct (fs w !! path) as [f|]; [|done].
  by destruct (decode_tables (name_tables f)).
Qed.

(** X24: the two readers do not disturb each other.  Inspecting a file
    after reading it (the same or another path) gives what inspecting it
    first would have given, and reading after inspecting likewise; neither
    call changes the file store. *)
Theorem X24_readers_commute (path path' : string) (w : World) :
  (inspect_exodus_file path' (read_exodus_file path w).2).1
  = (inspect_exodus_file path' w).1
  ∧ (read_exodus_file path (inspect_exodus_file path' w).2).1
    = (read_exodus_file path w).1
  ∧ fs (inspect_exodus_file path' (read_exodus_file path w).2).2 = fs w
  ∧ fs (read_exodus_file path (inspect_exodus_file path' w).2).2 = fs w.
Proof.
  rewrite !inspect_exodus_file_result, !read_exodus_file_result.
  by rewrite !inspect_exodus_file_fs, !read_exodus_file_fs, !inspect_exodus_file_fs.
Qed.

(** X25: the node count is taken last.  When coordx has rank 0 and the
    file is otherwise readable (coordy there, count declared, the declared
    rows decodable), [read_exodus_file] raises TypeError from [len(x)]
    only after the value loop has run: the warnings for the absent value
    arrays are already printed, and the handle is open. *)
Theorem X25_scalar_coordx_raises_last (path : string) (w : World) (f : NcFile)
    (x : ndarray) (N : nat) :
  fs w !! path = Some f →
  variables f !! "coordx" = Some x → shape x = [] →
  is_Some (variables f !! "coordy") →
  dimensions f !! "num_nod_var" = Some N →
  (∀ i, i < N → ∃ r, name_nod_var_row f i = Ok r ∧ decodable r) →
  read_exodus_file path w
  = (Raise (TypeError "len() of unsized object"),
     printed (opened w) (map (λ j, warning (vals_nod_var j)) (absent_positions f N))).
Proof.
  intros Hf Hx Hsh [y Hy] HN Hrows.
  destruct (rmap_Ok (λ i, try! r <- name_nod_var_row f i; decode_name strict r)
              (seq 0 N)) as [names Hnames].
  { intros i Hi. apply elem_of_seq in Hi.
    destruct (Hrows i) as (r & -> & Hr); [lia|]. simpl.
    by apply decode_name_strict_Ok. }
  assert (Hlen : len x = Raise (TypeError "len() of unsized object")).
  { by destruct x as [[c|cs|rows]|[c|cs|rows]]. }
  rewrite read_exodus_file_run, Hf.
  unfold extract, extract_output, read_coordinates, getitem, read_nod_var_names.
  rewrite Hx, Hy, HN. simpl. rewrite Hnames. simpl. rewrite Hlen. simpl.
  rewrite warnings_from_absent. unfold absent_positions.
  apply rmap_length in Hnames. rewrite length_seq in Hnames. by rewrite Hnames.
Qed.

Lemma X25_scalar_coordx_raises_last_witness :
  read_exodus_file "p.e" (world_of "p.e" scalar_coordx_file)
  = (Raise (TypeError "len() of unsized object"),
     printed (opened (world_of "p.e" scalar_coordx_file))
       (map (λ j, warning (vals_nod_var j)) (absent_positions scalar_coordx_file 2))).
Proof.
  apply (X25_scalar_coordx_raises_last "p.e" (world_of "p.e" scalar_coordx_file)
           scalar_coordx_file (num_array (Rank0 (0%Z, false))) 2).
  - vm_compute. reflexivity.
  - vm_compute. reflexivity.
  - reflexivity.
  - vm_compute. by eexists.
  - vm_compute. reflexivity.
  - intros i Hi.
    destruct i as [|[|i]]; [| |lia];
      (eexists; split; [vm_compute; reflexivity|]);
      apply decode_name_strict_Ok; eexists; vm_compute; reflexivity.
Defined.
